(** * Aqari Al-Dhaki: the price-prediction service of [app.py]

    A shallow embedding of the FastAPI service: the feature encoder
    ([map_building_age], [build_model_input]), the attribution aggregator
    ([group_shap_values]), and the two request handlers ([predict],
    [judge_price]) with the market grid and the ordered judgment chain.

    Python [float] is IEEE binary64 and is modelled by Rocq's primitive
    [float]; Python [int] is unbounded and is modelled by [Z]; [str] is a
    [string] of UTF-8 bytes; a [dict] is an association list kept in
    insertion order.  The trained model, the SHAP explainer, the numpy
    reductions and the two rounding primitives are external to the
    repository and enter as section variables; so does the arithmetic of
    the numpy scalars that [predict] computes on without converting them to
    [float] first. *)

From Stdlib Require Import ZArith List String Ascii Bool Floats Lia.
From Stdlib Require Import Sorted Permutation.
Import ListNotations.

Set Warnings "-inexact-float,-notation-for-abbreviation".

Local Open Scope string_scope.
Local Open Scope list_scope.

(** ** Python values *)

(** A cell of the row dictionary: the encoder stores [int(...)] and
    [float(...)] values, and [reindex] fills with the [int] 0. *)
Inductive value : Type :=
| VInt (n : Z)
| VFloat (x : float).

(** [v == 1] on a cell. *)
Definition value_eq_1 (v : value) : bool :=
  match v with
  | VInt n => (n =? 1)%Z
  | VFloat x => PrimFloat.eqb x 1%float
  end.

(** Truthiness of [Optional[int]]: [None] and [0] are falsy. *)
Definition truthy (o : option Z) : bool :=
  match o with
  | None => false
  | Some n => negb (n =? 0)%Z
  end.

(** [max(a, b)]: the running maximum is replaced only when the next item
    compares strictly greater. *)
Definition py_max (a b : float) : float :=
  if PrimFloat.ltb a b then b else a.

(** [range(lo, hi)] for [lo <= hi]. *)
Definition py_range (lo hi : Z) : list Z :=
  map (fun i => (lo + Z.of_nat i)%Z) (seq 0 (Z.to_nat (hi - lo))).

(** ** Dictionaries in insertion order *)

Definition dict (V : Type) : Type := list (string * V).

Fixpoint dict_get {V : Type} (k : string) (d : dict V) : option V :=
  match d with
  | [] => None
  | (k', v) :: d' => if String.eqb k' k then Some v else dict_get k d'
  end.

(** [d[k] = v]: an existing key keeps its position, a new key goes last. *)
Fixpoint dict_set {V : Type} (k : string) (v : V) (d : dict V) : dict V :=
  match d with
  | [] => [(k, v)]
  | (k', v') :: d' =>
      if String.eqb k' k then (k, v) :: d' else (k', v') :: dict_set k v d'
  end.

Definition dict_mem {V : Type} (k : string) (d : dict V) : bool :=
  match dict_get k d with
  | Some _ => true
  | None => false
  end.

(** [{**d1, **d2}], and with [d1 = {}] a dict display or comprehension. *)
Definition dict_update {V : Type} (d1 : dict V) (items : list (string * V))
  : dict V :=
  fold_left (fun d kv => dict_set (fst kv) (snd kv) d) items d1.

Definition dict_of_items {V : Type} (items : list (string * V)) : dict V :=
  dict_update [] items.

(** [d.get(k, default)]. *)
Definition dict_get_default {V : Type} (k : string) (default : V) (d : dict V)
  : V :=
  match dict_get k d with
  | Some v => v
  | None => default
  end.

(** ** Exceptions

    Both handlers run inside [try ... except Exception as e] and turn any
    exception into [HTTPException(status_code=400, detail=str(e))]. *)
Inductive result (A : Type) : Type :=
| Ok (a : A)
| Raise (detail : string).

Arguments Ok {A} a.
Arguments Raise {A} detail.

Definition bind {A B : Type} (m : result A) (f : A -> result B) : result B :=
  match m with
  | Ok a => f a
  | Raise e => Raise e
  end.

Notation "'let*' x ':=' m 'in' k" := (bind m (fun x => k))
  (at level 10, x pattern, m at level 100, k at level 200).

(** ** Data frames: ordered column labels and rows of cells *)
Record DataFrame : Type := {
  columns : list string;
  rows : list (list value)
}.

(** [pd.DataFrame([row])]. *)
Definition DataFrame_of_row (row : dict value) : DataFrame :=
  {| columns := map fst row; rows := [map snd row] |}.

(** [df.reindex(columns=new_columns, fill_value=fill)]: each new label takes
    the cell stored under it, or [fill] when the frame has no such label. *)
Definition reindex (df : DataFrame) (new_columns : list string) (fill : value)
  : DataFrame :=
  {| columns := new_columns;
     rows := map (fun r =>
                    map (fun c => dict_get_default c fill (combine (columns df) r))
                        new_columns)
                 (rows df) |}.

(** [pd.concat(frames, ignore_index=True)] for frames that carry the same
    column labels, which is how [judge_price] calls it; an empty list of
    frames raises. *)
Definition pd_concat (frames : list DataFrame) : result DataFrame :=
  match frames with
  | [] => Raise "No objects to concatenate"
  | f :: _ => Ok {| columns := columns f; rows := flat_map rows frames |}
  end.

(** [df.iloc[0][c]] as a scalar: the cell of the first row under label [c].
    A missing label is a [KeyError]; a label carried by several columns
    yields a Series, whose comparison result has no truth value. *)
Definition iloc0 (df : DataFrame) (c : string) : result value :=
  match rows df with
  | [] => Raise "IndexError: single positional indexer is out-of-bounds"
  | r :: _ =>
      match filter (fun kv => String.eqb (fst kv) c) (combine (columns df) r) with
      | [] => Raise "KeyError"
      | [kv] => Ok (snd kv)
      | _ :: _ :: _ => Raise "ValueError: the truth value of a Series is ambiguous"
      end
  end.

(** [xs[0]]. *)
Definition index0 {A : Type} (xs : list A) : result A :=
  match xs with
  | [] => Raise "IndexError: index 0 is out of bounds"
  | x :: _ => Ok x
  end.

(** ** Responses *)

(** The mapping [predict] returns. *)
Module PredictOut.
Record t : Type := {
  predicted_price : float;
  factors : dict float
}.
End PredictOut.

(** The mapping [judge_price] returns. *)
Module JudgeOut.
Record histogram : Type := {
  counts : list Z;
  edges : list float
}.
Record t : Type := {
  judgment_key : string;
  listed_price : float;
  predicted_price : float;
  market_mean : float;
  market_median : float;
  price_q1 : float;
  price_q3 : float;
  price_range : list float;
  hist : histogram
}.
End JudgeOut.

(** ** Request payloads *)

(** [PredictIn].  The fields keep their Arabic names: rooms, bathrooms,
    furnished, building area, floor, building age, mortgaged, payment
    method, parking, city. *)
Record PredictIn : Type := {
  عدد_الغرف : Z;
  عدد_الحمامات : Z;
  مفروشة : Z;
  مساحة_البناء : float;
  الطابق : Z;
  عمر_البناء : Z;
  العقار_مرهون : Z;
  طريقة_الدفع : Z;
  موقف_سيارات : option Z;
  المدينة : string
}.

(** [JudgeIn(PredictIn)] adds the asking price. *)
Record JudgeIn : Type := {
  attrs :> PredictIn;
  listed_price : float
}.

(** The field constraints pydantic enforces before a handler runs: counts
    of at least 1, flags in {0, 1}, a positive area and asking price, a
    non-negative age; floor and payment method are any integers. *)
Definition valid_PredictIn (p : PredictIn) : Prop :=
  (1 <= عدد_الغرف p)%Z /\ (1 <= عدد_الحمامات p)%Z /\
  (0 <= مفروشة p <= 1)%Z /\
  PrimFloat.ltb 0%float (مساحة_البناء p) = true /\
  (0 <= عمر_البناء p)%Z /\
  (0 <= العقار_مرهون p <= 1)%Z /\
  match موقف_سيارات p with
  | None => True
  | Some n => (0 <= n <= 1)%Z
  end.

Definition valid_JudgeIn (p : JudgeIn) : Prop :=
  valid_PredictIn p /\ PrimFloat.ltb 0%float (listed_price p) = true.

(** ** The encoder *)

Definition TRAIN_KEYS : dict string :=
  [ ("عدد_الغرف", "عدد الغرف");
    ("عدد_الحمامات", "عدد الحمامات");
    ("مفروشة", "مفروشة");
    ("مساحة_البناء", "مساحة البناء");
    ("الطابق", "الطابق");
    ("عمر_البناء", "عمر البناء");
    ("العقار_مرهون", "العقار مرهون");
    ("طريقة_الدفع", "طريقة الدفع") ].

(** [TRAIN_KEYS[k]] at the eight literal keys the encoder uses, all
    present. *)
Definition TRAIN_KEY (k : string) : string :=
  dict_get_default k "" TRAIN_KEYS.

Definition CITY_PREFIX : string := "المدينة_".

Definition map_building_age (age : Z) : Z :=
  if (age =? 0)%Z then 0
  else if (age =? 1)%Z then 1
  else if ((2 <=? age) && (age <=? 5))%Z then 2
  else if ((6 <=? age) && (age <=? 9))%Z then 3
  else if ((10 <=? age) && (age <=? 19))%Z then 4
  else 5.

Section App.

(** [feature_columns.pkl] and [city_categories.pkl], loaded at start-up. *)
Variable feature_columns : list string.
Variable city_categories : list string.

Definition base_row (payload : PredictIn) : dict value :=
  dict_of_items
    [ (TRAIN_KEY "عدد_الغرف", VInt (عدد_الغرف payload));
      (TRAIN_KEY "عدد_الحمامات", VInt (عدد_الحمامات payload));
      (TRAIN_KEY "مفروشة", VInt (مفروشة payload));
      (TRAIN_KEY "مساحة_البناء", VFloat (مساحة_البناء payload));
      (TRAIN_KEY "الطابق", VInt (الطابق payload));
      (TRAIN_KEY "عمر_البناء", VInt (map_building_age (عمر_البناء payload)));
      (TRAIN_KEY "العقار_مرهون", VInt (العقار_مرهون payload));
      (TRAIN_KEY "طريقة_الدفع", VInt (طريقة_الدفع payload)) ].

(** [{f"{CITY_PREFIX}{c}": 0 for c in city_categories}]. *)
Definition zero_city_cols : dict value :=
  dict_of_items (map (fun c => ((CITY_PREFIX ++ c)%string, VInt 0)) city_categories).

Definition other_col : string := (CITY_PREFIX ++ "أخرى")%string.

(** [city_cols] after the membership test on the payload's city. *)
Definition city_cols (payload : PredictIn) : dict value :=
  if existsb (String.eqb (المدينة payload)) city_categories
  then dict_set (CITY_PREFIX ++ المدينة payload)%string (VInt 1) zero_city_cols
  else if dict_mem other_col zero_city_cols
       then dict_set other_col (VInt 1) zero_city_cols
       else zero_city_cols.

(** [row = {**base, **city_cols}]. *)
Definition row (payload : PredictIn) : dict value :=
  dict_update (base_row payload) (city_cols payload).

Definition build_model_input (payload : PredictIn) : DataFrame :=
  let df := DataFrame_of_row (row payload) in
  reindex df feature_columns (VInt 0).

(** ** The attribution aggregator *)

(** The arithmetic [group_shap_values] performs on attribution scores.  The
    scores are the numpy scalars of the explainer's output, of whatever
    floating dtype the explainer emits, and the aggregator never converts
    them: every operation below is the one of that scalar type, with the
    Python numbers 0, 100 and 1e-9 entering as numpy promotes them.
    [float_Number] below is the instance for binary64 ([np.float64] and
    Python [float]).  [nzero] also stands for the [int] 0 that [sum] starts
    from and that [get] defaults to: every operation applied to it
    afterwards converts it to a floating zero. *)
Class Number (F : Type) : Type := {
  nzero : F;
  nadd : F -> F -> F;
  nabs : F -> F;
  nmul : F -> F -> F;
  ndiv : F -> F -> F;
  nltb : F -> F -> bool;
  neqb : F -> F -> bool;
  n100 : F;
  n1e_9 : F;
  nround2 : F -> F
}.

(** [sum(xs)]: left to right from 0. *)
Definition py_sum {F : Type} `{Number F} (xs : list F) : F :=
  fold_left nadd xs nzero.

(** [x or y] on numbers: [x] unless it equals zero. *)
Definition py_or {F : Type} `{Number F} (x y : F) : F :=
  if neqb x nzero then y else x.

(** [sorted(items, key=..., reverse=True)] is stable: items whose keys
    compare equal keep their order.  On keys that [key_lt] orders totally
    every stable sort returns the same list; this one inserts from the
    right.  Keys with a NaN among them are not ordered totally, and what
    CPython returns for them depends on which comparisons its sort makes. *)
Fixpoint insert_desc {A : Type} (key_lt : A -> A -> bool) (x : A) (l : list A)
  : list A :=
  match l with
  | [] => [x]
  | y :: l' => if key_lt x y then y :: insert_desc key_lt x l' else x :: l
  end.

Definition sorted_desc {A : Type} (key_lt : A -> A -> bool) (l : list A)
  : list A :=
  fold_right (insert_desc key_lt) [] l.

Definition FEATURE_GROUPS : dict (list string) :=
  [ ("المساحة و الغرف", ["مساحة البناء"; "عدد الغرف"]);
    ("الحمامات", ["عدد الحمامات"]);
    ("حالة العقار", ["مفروشة"; "عمر البناء"; "العقار مرهون"]);
    ("الدفع", ["طريقة الدفع"]);
    ("الطابق", ["الطابق"]);
    ("المدينة", filter (String.prefix CITY_PREFIX) feature_columns) ].

(** [[f for f in features if input_df.iloc[0][f] == 1]]. *)
Fixpoint active_cities (input_df : DataFrame) (features : list string)
  : result (list string) :=
  match features with
  | [] => Ok []
  | f :: fs =>
      let* v := iloc0 input_df f in
      let* rest := active_cities input_df fs in
      Ok (if value_eq_1 v then f :: rest else rest)
  end.

Section Aggregator.

Context {F : Type} `{Number F}.

(** The loop over [FEATURE_GROUPS.items()] that fills [grouped]. *)
Fixpoint group_sums (feature_shap : dict F) (input_df : DataFrame)
  (groups : list (string * list string)) (grouped : dict F)
  : result (dict F) :=
  match groups with
  | [] => Ok grouped
  | (group_name, features) :: groups' =>
      if String.eqb group_name "المدينة"
      then
        let* active := active_cities input_df features in
        group_sums feature_shap input_df groups'
          (dict_set group_name
             (py_sum (map (fun f => dict_get_default f nzero feature_shap) active))
             grouped)
      else
        group_sums feature_shap input_df groups'
          (dict_set group_name
             (py_sum (map (fun f => dict_get_default f nzero feature_shap) features))
             grouped)
  end.

Definition abs_key_lt (a b : string * F) : bool :=
  nltb (nabs (snd a)) (nabs (snd b)).

(** [ranked] before sorting: the percentage of every group. *)
Definition normalize (grouped : dict F) : dict F :=
  let total_abs := py_or (py_sum (map (fun kv => nabs (snd kv)) grouped)) n1e_9 in
  dict_of_items
    (map (fun kv => (fst kv, nround2 (nmul (ndiv (snd kv) total_abs) n100)))
         grouped).

Definition group_shap_values (shap_values : list F) (input_df : DataFrame)
  : result (dict F) :=
  let feature_shap := dict_of_items (combine (columns input_df) shap_values) in
  let* grouped := group_sums feature_shap input_df FEATURE_GROUPS [] in
  let ranked := normalize grouped in
  let ranked := dict_of_items (sorted_desc abs_key_lt ranked) in
  let top_ranked := dict_of_items (firstn 4 ranked) in
  Ok top_ranked.

End Aggregator.

(** ** The handlers *)

(** [final_model.predict(df)] as [judge_price] reads it, converted to
    Python floats by [astype(float)] and [float(...)]: one price per row, or
    an exception. *)
Variable final_model_predict : DataFrame -> result (list float).

(** [np.round(x, 2)] on binary64, which is also [round(x, 2)] on a
    [np.float64]. *)
Variable np_round2 : float -> float.

(** The builtin [round(x, 2)] on a Python [float]; it returns [nan] and the
    infinities unchanged and never raises. *)
Variable py_round2 : float -> float.

(** The numpy reductions [judge_price] calls on the simulated prices. *)
Variable np_min np_max np_mean np_median : list float -> result float.
Variable np_percentile : list float -> Z -> result float.
Variable np_histogram : list float -> nat -> result (list Z * list float).

#[export] Instance float_Number : Number float := {
  nzero := 0%float;
  nadd := PrimFloat.add;
  nabs := PrimFloat.abs;
  nmul := PrimFloat.mul;
  ndiv := PrimFloat.div;
  nltb := PrimFloat.ltb;
  neqb := PrimFloat.eqb;
  n100 := 100%float;
  n1e_9 := 1e-9%float;
  nround2 := np_round2
}.

(** [y *= 1.011] on a Python float when the parking flag is truthy, as in
    [judge_price]. *)
Definition parking_surcharge (payload : PredictIn) (y : float) : float :=
  if truthy (موقف_سيارات payload) then (y * 1.011)%float else y.

(** ** Numpy scalars in [predict]

    [predict] takes [final_model.predict(df_input)[0]] as the numpy scalar
    it is and never calls [float] on it before computing: [y_pred *= 1.011]
    and [np.round(y_pred, 2)] run in the arithmetic of that scalar (binary32
    for a model that emits [float32]), and only the rounded result is
    converted.  The operations of the scalar type are those of numpy:
    [scalar_mul x c] is [x * c] for a Python float [c], [scalar_round2 x] is
    [np.round(x, 2)] and [scalar_float x] is [float(x)]. *)
Class Scalar (S : Type) : Type := {
  scalar_mul : S -> float -> S;
  scalar_round2 : S -> S;
  scalar_float : S -> float
}.

(** A model that emits [float64]. *)
#[export] Instance float_Scalar : Scalar float := {
  scalar_mul := PrimFloat.mul;
  scalar_round2 := np_round2;
  scalar_float := fun x => x
}.

Section Predict.

(** The scalars of the model's output and of the explainer's output. *)
Context {S : Type} `{Scalar S}.
Context {F : Type} `{Number F}.

(** [final_model.predict(df)] as it comes: one scalar per row, or an
    exception. *)
Variable model_predict : DataFrame -> result (list S).

(** [explainer(df).values[0]]: the attributions of the first row, one per
    column. *)
Variable explainer_values : DataFrame -> result (list F).

(** [float(x)] on an attribution. *)
Variable attribution_float : F -> float.

(** [y_pred *= 1.011] on the model's scalar when the parking flag is
    truthy. *)
Definition scalar_surcharge (payload : PredictIn) (y : S) : S :=
  if truthy (موقف_سيارات payload) then scalar_mul y 1.011%float else y.

Definition predict (payload : PredictIn) : result PredictOut.t :=
  let df_input := build_model_input payload in
  let* ys := model_predict df_input in
  let* y_pred := index0 ys in
  let y_pred := scalar_surcharge payload y_pred in
  let* contribs := explainer_values df_input in
  let* grouped := group_shap_values contribs df_input in
  let grouped :=
    dict_of_items
      (map (fun kv => (fst kv, attribution_float (nround2 (snd kv)))) grouped) in
  Ok {| PredictOut.predicted_price := scalar_float (scalar_round2 y_pred);
        PredictOut.factors := grouped |}.

(** The model's output for the request itself, as [predict] obtains it. *)
Definition model_output (payload : PredictIn) (y : S) : Prop :=
  exists ys, model_predict (build_model_input payload) = Ok ys /\
             index0 ys = Ok y.

End Predict.

(** The seven nested [for] loops of [judge_price], outermost first. *)
Definition for_grid {A : Type}
  (body : Z -> Z -> Z -> Z -> Z -> Z -> Z -> A) : list A :=
  flat_map (fun rooms =>
  flat_map (fun baths =>
  flat_map (fun age =>
  flat_map (fun floor =>
  flat_map (fun furnished =>
  flat_map (fun payment =>
  map (fun mortgaged => body rooms baths age floor furnished payment mortgaged)
      [0; 1]%Z)
      [0; 1; 2]%Z)
      [0; 1]%Z)
      [0; 1; 2; 3; 4; 11]%Z)
      [0; 5; 9; 19; 20]%Z)
      (py_range 1 4))
      (py_range 1 5).

(** [payload.model_copy(deep=True)] followed by the seven assignments. *)
Definition variant (payload : JudgeIn)
  (rooms baths age floor furnished payment mortgaged : Z) : JudgeIn :=
  {| attrs :=
       {| عدد_الغرف := rooms;
          عدد_الحمامات := baths;
          مفروشة := furnished;
          مساحة_البناء := مساحة_البناء payload;
          الطابق := floor;
          عمر_البناء := age;
          العقار_مرهون := mortgaged;
          طريقة_الدفع := payment;
          موقف_سيارات := موقف_سيارات payload;
          المدينة := المدينة payload |};
     listed_price := listed_price payload |}.

Definition variants (payload : JudgeIn) : list DataFrame :=
  for_grid (fun rooms baths age floor furnished payment mortgaged =>
              build_model_input
                (variant payload rooms baths age floor furnished payment mortgaged)).

(** The [if]/[elif] chain that sets [judgment_key]. *)
Definition judgment_key
  (listed predicted_price price_min price_mean price_max : float) : string :=
  if (listed <? py_max (price_min * 0.9) (price_mean * 0.7))%float
  then "SUSPICIOUSLY_UNDERPRICED"
  else if (listed <? price_mean * 0.85)%float
  then "FAIR_LOW"
  else if ((predicted_price * 0.95 <=? listed)
           && (listed <=? predicted_price * 1.05))%float
  then "PREDICTED_PRICE"
  else if (listed <? price_mean * 0.95)%float
  then "GOOD_DEAL"
  else if (listed <? predicted_price)%float
  then "PREDICTED_PRICE"
  else if (listed <=? price_max)%float
  then "FAIR_PRICE"
  else "OVERPRICED".

(** [r(x)]: [float(round(x, 2))]; the [except] branch is never taken on a
    [float]. *)
Definition r (x : float) : float := py_round2 x.

(** [predicted_prices]: the model's prices for the whole grid. *)
Definition simulated_prices (payload : JudgeIn) : result (list float) :=
  let* all_df := pd_concat (variants payload) in
  final_model_predict all_df.

Definition judge_price (payload : JudgeIn) : result JudgeOut.t :=
  let* predicted_prices := simulated_prices payload in
  let* price_min := np_min predicted_prices in
  let* price_max := np_max predicted_prices in
  let* price_mean := np_mean predicted_prices in
  let* price_median := np_median predicted_prices in
  let* price_q1 := np_percentile predicted_prices 25 in
  let* price_q3 := np_percentile predicted_prices 75 in
  let* hist := np_histogram predicted_prices 10 in
  let hist_counts := fst hist in
  let hist_edges := snd hist in
  let listed := listed_price payload in
  let df_input := build_model_input payload in
  let* ys := final_model_predict df_input in
  let* y0 := index0 ys in
  let predicted_price := parking_surcharge payload y0 in
  let key := judgment_key listed predicted_price price_min price_mean price_max in
  Ok {| JudgeOut.judgment_key := key;
        JudgeOut.listed_price := r listed;
        JudgeOut.predicted_price := r predicted_price;
        JudgeOut.market_mean := r price_mean;
        JudgeOut.market_median := r price_median;
        JudgeOut.price_q1 := r price_q1;
        JudgeOut.price_q3 := r price_q3;
        JudgeOut.price_range := [r price_min; r price_max];
        JudgeOut.hist := {| JudgeOut.counts := hist_counts;
                            JudgeOut.edges := hist_edges |} |}.

(** The values [judge_price] binds before it builds its response. *)
Record judge_run : Type := {
  predicted_prices : list float;
  price_min : float;
  price_max : float;
  price_mean : float;
  price_median : float;
  price_q1 : float;
  price_q3 : float;
  hist_counts : list Z;
  hist_edges : list float;
  point_estimate : float
}.

(** The model's point estimate for the request itself, as [judge_price]
    obtains it: a Python float. *)
Definition estimates (payload : PredictIn) (y : float) : Prop :=
  exists ys, final_model_predict (build_model_input payload) = Ok ys /\
             index0 ys = Ok y.

Definition judge_binds (payload : JudgeIn) (t : judge_run) : Prop :=
  simulated_prices payload = Ok (predicted_prices t) /\
  np_min (predicted_prices t) = Ok (price_min t) /\
  np_max (predicted_prices t) = Ok (price_max t) /\
  np_mean (predicted_prices t) = Ok (price_mean t) /\
  np_median (predicted_prices t) = Ok (price_median t) /\
  np_percentile (predicted_prices t) 25 = Ok (price_q1 t) /\
  np_percentile (predicted_prices t) 75 = Ok (price_q3 t) /\
  np_histogram (predicted_prices t) 10 = Ok (hist_counts t, hist_edges t) /\
  estimates payload (point_estimate t).

(** The response [judge_price] builds from what it has bound. *)
Definition judge_response (payload : JudgeIn) (t : judge_run) : JudgeOut.t :=
  let predicted_price := parking_surcharge payload (point_estimate t) in
  {| JudgeOut.judgment_key :=
       judgment_key (listed_price payload) predicted_price
         (price_min t) (price_mean t) (price_max t);
     JudgeOut.listed_price := r (listed_price payload);
     JudgeOut.predicted_price := r predicted_price;
     JudgeOut.market_mean := r (price_mean t);
     JudgeOut.market_median := r (price_median t);
     JudgeOut.price_q1 := r (price_q1 t);
     JudgeOut.price_q3 := r (price_q3 t);
     JudgeOut.price_range := [r (price_min t); r (price_max t)];
     JudgeOut.hist := {| JudgeOut.counts := hist_counts t;
                         JudgeOut.edges := hist_edges t |} |}.

End App.

(** ** The specification's wording, for comparison with the code *)

(** The judge as the specification lists it: seven (condition, label) pairs
    in order, the seventh without a condition; the first pair whose
    condition holds gives the label. *)
Definition spec_rules (l p mn mean mx : float) : list (bool * string) :=
  [ ((l <? py_max (0.9 * mn) (0.7 * mean))%float, "SUSPICIOUSLY_UNDERPRICED");
    ((l <? 0.85 * mean)%float, "FAIR_LOW");
    (((0.95 * p <=? l) && (l <=? 1.05 * p))%float, "PREDICTED_PRICE");
    ((l <? 0.95 * mean)%float, "GOOD_DEAL");
    ((l <? p)%float, "PREDICTED_PRICE");
    ((l <=? mx)%float, "FAIR_PRICE");
    (true, "OVERPRICED") ].

Fixpoint first_match (rules : list (bool * string)) : option string :=
  match rules with
  | [] => None
  | (cond, label) :: rules' => if cond then Some label else first_match rules'
  end.

(** The labels of the seven rules, in rule order; rules 3 and 5 share
    theirs. *)
Definition rule_labels : list string :=
  [ "SUSPICIOUSLY_UNDERPRICED"; "FAIR_LOW"; "PREDICTED_PRICE"; "GOOD_DEAL";
    "PREDICTED_PRICE"; "FAIR_PRICE"; "OVERPRICED" ].

(** The seven coordinates the market grid varies. *)
Definition coords (v : JudgeIn) : Z * Z * Z * Z * Z * Z * Z :=
  (عدد_الغرف v, عدد_الحمامات v, عمر_البناء v, الطابق v, مفروشة v,
   طريقة_الدفع v, العقار_مرهون v).

(** The un-encoded variants, in loop order. *)
Definition grid_payloads (payload : JudgeIn) : list JudgeIn :=
  for_grid (variant payload).

(** A payload with the parking flag replaced. *)
Definition with_parking (p : PredictIn) (flag : option Z) : PredictIn :=
  {| عدد_الغرف := عدد_الغرف p;
     عدد_الحمامات := عدد_الحمامات p;
     مفروشة := مفروشة p;
     مساحة_البناء := مساحة_البناء p;
     الطابق := الطابق p;
     عمر_البناء := عمر_البناء p;
     العقار_مرهون := العقار_مرهون p;
     طريقة_الدفع := طريقة_الدفع p;
     موقف_سيارات := flag;
     المدينة := المدينة p |}.

Definition judge_with_parking (p : JudgeIn) (flag : option Z) : JudgeIn :=
  {| attrs := with_parking p flag; listed_price := listed_price p |}.

(** Pairwise distinctness of a list, decided by comparison. *)
Fixpoint distinctb {A : Type} (eqb : A -> A -> bool) (l : list A) : bool :=
  match l with
  | [] => true
  | x :: l' => negb (existsb (eqb x) l') && distinctb eqb l'
  end.

Definition coords_eqb (a b : Z * Z * Z * Z * Z * Z * Z) : bool :=
  let '(a1, a2, a3, a4, a5, a6, a7) := a in
  let '(b1, b2, b3, b4, b5, b6, b7) := b in
  ((a1 =? b1) && (a2 =? b2) && (a3 =? b3) && (a4 =? b4) && (a5 =? b5)
   && (a6 =? b6) && (a7 =? b7))%Z.

(** A city indicator column is one whose label starts with [CITY_PREFIX], as
    in [FEATURE_GROUPS]. *)
Definition is_city_col (c : string) : bool := String.prefix CITY_PREFIX c.

(** The cells of an encoded payload, each under its column label. *)
Definition encoded (df : DataFrame) : dict value :=
  combine (columns df) (hd [] (rows df)).

(** The city indicator columns that are set to 1, position by position. *)
Definition city_ones (vec : dict value) : dict value :=
  filter (fun kv => is_city_col (fst kv) && value_eq_1 (snd kv)) vec.

(** The city indicator the encoder switches on: the payload's city when the
    category set has it, else the category [أخرى] when the category set has
    that, else none. *)
Definition active_col (city_categories : list string) (p : PredictIn)
  : option string :=
  if existsb (String.eqb (المدينة p)) city_categories
  then Some (CITY_PREFIX ++ المدينة p)%string
  else if existsb (String.eqb "أخرى") city_categories
       then Some (CITY_PREFIX ++ "أخرى")%string
       else None.

Definition sumZ (l : list Z) : Z := fold_right Z.add 0%Z l.

(** The names of the attribution groups, in definition order. *)
Definition group_names : list string :=
  [ "المساحة و الغرف"; "الحمامات"; "حالة العقار"; "الدفع"; "الطابق"; "المدينة" ].



(** The one-hot sentence of the specification, word for word: at most one
    city indicator is 1; it is the one of the payload's city when the
    category set has that city; otherwise it is the reserved "other"
    column when the feature schema defines one; otherwise none is set. *)
Definition one_hot_as_specified (feature_columns city_categories : list string)
  (p : PredictIn) : Prop :=
  let vec := encoded (build_model_input feature_columns city_categories p) in
  (List.length (city_ones vec) <= 1)%nat /\
  if existsb (String.eqb (المدينة p)) city_categories
  then dict_get (CITY_PREFIX ++ المدينة p)%string vec = Some (VInt 1)
  else if existsb (String.eqb other_col) feature_columns
       then dict_get other_col vec = Some (VInt 1)
       else city_ones vec = [].

(** The rounding sentence of the specification: every numeric value of the
    Judge response, the eleven histogram edges included, is a two-decimal
    value, one that rounding to two decimals leaves as it is. *)
Definition all_rounded_as_specified (round2 : float -> float)
  (out : JudgeOut.t) : Prop :=
  Forall (fun x => round2 x = x)
    ([ JudgeOut.listed_price out; JudgeOut.predicted_price out;
       JudgeOut.market_mean out; JudgeOut.market_median out;
       JudgeOut.price_q1 out; JudgeOut.price_q3 out ]
     ++ JudgeOut.price_range out
     ++ JudgeOut.edges (JudgeOut.hist out)).

(** The surcharge sentence of the specification: the returned price is the
    point estimate [y] times 1.011 when the parking flag is true, and [y]
    itself otherwise. *)
Definition surcharge_as_specified (payload : PredictIn) (y returned : float)
  : Prop :=
  returned = if truthy (موقف_سيارات payload) then (y * 1.011)%float else y.

(** ** Auxiliary notions for the proofs *)




(** Peel the successful binds off a hypothesis [... = Ok _]. *)
Ltac bind_inv H :=
  repeat match type of H with
         | bind ?m _ = Ok _ =>
             let x := fresh "x" in
             let E := fresh "E" in
             destruct m as [x|] eqn:E; [cbn [bind] in H|discriminate H]
         end.

(** Two binary64 values with different bit patterns are different. *)
Ltac float_neq H :=
  apply (f_equal Prim2SF) in H; vm_compute in H; discriminate H.

(** ** A concrete deployment, to run the handlers on

    A schema with two cities and an "other" column, a model that prices by
    the room count, and direct implementations of the numpy reductions.  The
    prices of the runs below are multiples of 1000 or of 1000.125, on which
    every sum, difference and interpolation these implementations perform
    is exact. *)

Module Demo.

Definition feature_columns : list string :=
  [ "عدد الغرف"; "عدد الحمامات"; "مفروشة"; "مساحة البناء"; "الطابق";
    "عمر البناء"; "العقار مرهون"; "طريقة الدفع";
    "المدينة_رام الله"; "المدينة_نابلس"; "المدينة_أخرى" ].

Definition city_categories : list string := [ "رام الله"; "نابلس" ].

Definition float_of_Z (n : Z) : float :=
  if (n <? 0)%Z then PrimFloat.opp (PrimFloat.of_uint63 (Uint63.of_Z (- n)))
  else PrimFloat.of_uint63 (Uint63.of_Z n).

Definition float_of_nat (n : nat) : float := float_of_Z (Z.of_nat n).

(** A stub model: [unit_price] times the room count of each row. *)
Definition stub_predict (unit_price : float) (df : DataFrame)
  : result (list float) :=
  Ok (map (fun row =>
             match dict_get "عدد الغرف" (combine (columns df) row) with
             | Some (VInt n) => (unit_price * float_of_Z n)%float
             | _ => 0%float
             end)
          (rows df)).

(** Stub explainers: a fixed attribution per column, and none at all. *)
Definition stub_explainer (df : DataFrame) : result (list float) :=
  Ok (firstn (List.length (columns df))
        [30; 20; -10; 25; 5; -5; 0; 5; 40; 0; 0]%float).


(** Round-half-even to an integer, for [|x| < 2^52]; larger binary64 values
    are integers already. *)
Definition rint (x : float) : float :=
  let two52 := 4503599627370496%float in
  if (abs x <? two52)%float
  then let m := (abs x + two52 - two52)%float in
       if (x <? 0)%float then (- m)%float else m
  else x.

(** Rounding to two decimals the way [np.round] does it: scale, [rint],
    unscale.  On the values the examples below round (exact ties and
    integers) the builtin [round] returns the same floats. *)
Definition round2 (x : float) : float := (rint (x * 100) / 100)%float.

Fixpoint insert_asc (x : float) (l : list float) : list float :=
  match l with
  | [] => [x]
  | y :: l' => if (y <? x)%float then y :: insert_asc x l' else x :: l
  end.

Definition sort_asc (l : list float) : list float :=
  fold_right insert_asc [] l.

Definition np_min (xs : list float) : result float :=
  match xs with
  | [] => Raise "zero-size array to reduction operation minimum"
  | x :: xs' => Ok (fold_left (fun m y => if (y <? m)%float then y else m) xs' x)
  end.

Definition np_max (xs : list float) : result float :=
  match xs with
  | [] => Raise "zero-size array to reduction operation maximum"
  | x :: xs' => Ok (fold_left (fun m y => if (m <? y)%float then y else m) xs' x)
  end.

Definition np_mean (xs : list float) : result float :=
  Ok (fold_left PrimFloat.add xs 0 / float_of_nat (List.length xs))%float.

(** Linear interpolation between the order statistics around the virtual
    index [(n - 1) * q / 100]. *)
Definition np_percentile (xs : list float) (q : Z) : result float :=
  match sort_asc xs with
  | [] => Raise "percentile of an empty array"
  | (x :: _) as sorted =>
      let num := (Z.of_nat (List.length sorted - 1) * q)%Z in
      let lo := Z.to_nat (num / 100) in
      let a := nth lo sorted x in
      let b := nth (S lo) sorted a in
      Ok (a + (b - a) * (float_of_Z (num mod 100) / 100))%float
  end.

Definition np_median (xs : list float) : result float :=
  np_percentile xs 50.

(** [np.histogram(xs, bins)]: equal-width bins over [min, max], widened by
    one half on each side when all values coincide; every bin is half-open
    but the last.  A value falls in the bin numbered by how many inner
    edges it has reached. *)
Definition hist_edges (first last : float) (bins : nat) : list float :=
  let step := ((last - first) / float_of_nat bins)%float in
  map (fun i => (first + float_of_nat i * step)%float) (seq 0 bins) ++ [last].

Definition bin_index (inner : list float) (x : float) : nat :=
  List.length (filter (fun e => (e <=? x)%float) inner).

Definition np_histogram (xs : list float) (bins : nat)
  : result (list Z * list float) :=
  match bins, np_min xs, np_max xs with
  | O, _, _ => Raise "`bins` must be positive"
  | S _, Ok lo, Ok hi =>
      if negb (PrimFloat.eqb (hi - lo) (hi - lo))
      then Raise "autodetected range is not finite"
      else
        let first := if PrimFloat.eqb lo hi then (lo - 0.5)%float else lo in
        let last := if PrimFloat.eqb lo hi then (hi + 0.5)%float else hi in
        let edges := hist_edges first last bins in
        let inner := firstn (bins - 1) (tl edges) in
        Ok (map (fun i =>
                   Z.of_nat
                     (List.length
                        (filter (fun x => Nat.eqb (bin_index inner x) i) xs)))
                (seq 0 bins),
            edges)
  | S _, _, _ =>
      Ok (map (fun _ => 0%Z) (seq 0 bins), hist_edges 0 1 bins)
  end.

(** The example request of the specification for a given city and parking
    flag; [request] has the city [X], which is outside the category set,
    and no parking. *)
Definition request_of (city : string) (parking : option Z) : PredictIn :=
  {| عدد_الغرف := 3;
     عدد_الحمامات := 2;
     مفروشة := 1;
     مساحة_البناء := 120%float;
     الطابق := 2;
     عمر_البناء := 7;
     العقار_مرهون := 0;
     طريقة_الدفع := 0;
     موقف_سيارات := parking;
     المدينة := city |}.

Definition request : PredictIn := request_of "X" (Some 0%Z).

Definition judge_request (listed : float) : JudgeIn :=
  {| attrs := request; listed_price := listed |}.

(** Rounding of a binary64 value to the nearest binary32 value, ties to
    even.  The sum, product or quotient of two binary32 values, computed in
    binary64 and rounded so, is their binary32 sum, product or quotient. *)
Definition round32 (x : float) : float :=
  match Prim2SF x with
  | S754_finite s m e => SF2Prim (binary_round 24 128 s m e)
  | _ => x
  end.

(** [np.round(x, 2)] on a [float32]: scale by 100, round to an integer and
    unscale, each step in [float32]. *)
Definition round2_32 (x : float) : float :=
  round32 (rint (round32 (x * 100)) / 100).

(** A model that emits [float32], each scalar held as the binary64 value it
    converts to.  A Python float operand is converted to [float32] before
    the operation, as numpy 2 promotes it. *)
Definition float32_Scalar : Scalar float := {|
  scalar_mul := fun x c => round32 (x * round32 c);
  scalar_round2 := round2_32;
  scalar_float := fun x => x
|}.

(** An explainer that emits [float32]. *)
Definition float32_Number : Number float := {|
  nzero := 0%float;
  nadd := fun x y => round32 (x + y);
  nabs := PrimFloat.abs;
  nmul := fun x y => round32 (x * y);
  ndiv := fun x y => round32 (x / y);
  nltb := PrimFloat.ltb;
  neqb := PrimFloat.eqb;
  n100 := 100%float;
  n1e_9 := round32 1e-9;
  nround2 := round2_32
|}.

(** A stub explainer that emits [float32]: the [float32] values nearest to
    47.12 and 52.88 for the rooms and the bathrooms, zero elsewhere. *)
Definition float32_explainer (df : DataFrame) : result (list float) :=
  Ok (firstn (List.length (columns df))
        (map round32 [47.12; 52.88; 0; 0; 0; 0; 0; 0; 0; 0; 0]%float)).

(** [predict] on a model and an explainer that emit [float32]. *)
Definition predict32 (unit_price : float)
  (explainer : DataFrame -> result (list float)) (payload : PredictIn)
  : result PredictOut.t :=
  @predict feature_columns city_categories float float32_Scalar
    float float32_Number (stub_predict unit_price) explainer
    (fun x => x) payload.

(** [predict] on a model and an explainer that emit [float64]. *)
Definition predict (unit_price : float)
  (explainer : DataFrame -> result (list float)) (payload : PredictIn)
  : result PredictOut.t :=
  @predict feature_columns city_categories float (float_Scalar round2)
    float (float_Number round2) (stub_predict unit_price) explainer
    (fun x => x) payload.

Definition judge (unit_price : float) (payload : JudgeIn)
  : result JudgeOut.t :=
  judge_price feature_columns city_categories (stub_predict unit_price)
    round2 np_min np_max np_mean np_median np_percentile np_histogram payload.

End Demo.

(** ** Listings on the market grid *)

(** A listing whose seven varied attributes take values the loops of
    [judge_price] run over, the age up to its bucket. *)
Definition on_grid (p : PredictIn) : Prop :=
  In (عدد_الغرف p) (py_range 1 5) /\
  In (عدد_الحمامات p) (py_range 1 4) /\
  In (map_building_age (عمر_البناء p))
     (map map_building_age [0; 5; 9; 19; 20]%Z) /\
  In (الطابق p) [0; 1; 2; 3; 4; 11]%Z /\
  In (مفروشة p) [0; 1]%Z /\
  In (طريقة_الدفع p) [0; 1; 2]%Z /\
  In (العقار_مرهون p) [0; 1]%Z.

(** * The listings scraper of [scrapper.py]: the age field

    [transform_age] turns the age text of a listing into the bucket the
    model is trained on.  Here a [str] is the list of its code points, so
    that [str.translate] and the regular expression [\d+] act on
    characters; string literals are decoded from their UTF-8 bytes.  The
    Unicode database, which decides what [\d] matches and what [int]
    reads, and the interpreter's limit on the digits of an integer string
    are external and enter as section variables. *)

Module Scrapper.

Definition str : Type := list N.

(** The code points of a UTF-8 literal. *)
Fixpoint utf8_decode (s : string) : str :=
  match s with
  | EmptyString => []
  | String a s1 =>
      let b := N_of_ascii a in
      if (b <? 128)%N then b :: utf8_decode s1
      else if (b <? 224)%N then
        match s1 with
        | String a1 s2 =>
            ((b - 192) * 64 + (N_of_ascii a1 - 128))%N :: utf8_decode s2
        | EmptyString => []
        end
      else if (b <? 240)%N then
        match s1 with
        | String a1 (String a2 s3) =>
            ((b - 224) * 4096 + (N_of_ascii a1 - 128) * 64
             + (N_of_ascii a2 - 128))%N :: utf8_decode s3
        | _ => []
        end
      else
        match s1 with
        | String a1 (String a2 (String a3 s4)) =>
            ((b - 240) * 262144 + (N_of_ascii a1 - 128) * 4096
             + (N_of_ascii a2 - 128) * 64 + (N_of_ascii a3 - 128))%N
            :: utf8_decode s4
        | _ => []
        end
  end.

(** [a == b] on strings. *)
Fixpoint str_eqb (a b : str) : bool :=
  match a, b with
  | [], [] => true
  | x :: a', y :: b' => (x =? y)%N && str_eqb a' b'
  | _, _ => false
  end.

(** What a transformer returns: [None], an [int], or a [str]. *)
Inductive transformed : Type :=
| PyNone
| PyInt (n : Z)
| PyStr (s : str).

(** [str.maketrans(x, y)] for [x] and [y] of equal length and [x] without a
    repeated character. *)
Definition maketrans (x y : str) : list (N * N) := combine x y.

Definition eastern_to_western_map : list (N * N) :=
  maketrans (utf8_decode "٠١٢٣٤٥٦٧٨٩") (utf8_decode "0123456789").

Fixpoint table_get (c : N) (table : list (N * N)) : option N :=
  match table with
  | [] => None
  | (k, v) :: table' => if (k =? c)%N then Some v else table_get c table'
  end.

(** [text.translate(table)]: a character the table lacks stays. *)
Definition translate (table : list (N * N)) (text : str) : str :=
  map (fun c => match table_get c table with
                | Some c' => c'
                | None => c
                end) text.

(** [m.get(k)] on a dict with [str] keys. *)
Fixpoint str_dict_get {V : Type} (k : str) (m : list (str * V)) : option V :=
  match m with
  | [] => None
  | (k', v) :: m' => if str_eqb k' k then Some v else str_dict_get k m'
  end.

Definition age_map : list (str * Z) :=
  [ (utf8_decode "جديد", 0);
    (utf8_decode "قيد الإنشاء", 0);
    (utf8_decode "0 - 11 شهر", 1);
    (utf8_decode "1 - 5 سنوات", 2);
    (utf8_decode "6 - 9 سنوات", 3);
    (utf8_decode "10 - 19 سنوات", 4);
    (utf8_decode "20+ سنة", 5) ]%Z.

Section Transformers.

(** [unicodedata.decimal]: the digit value of a character of category Nd,
    the characters [\d] matches in a [str] pattern and [int] reads. *)
Variable unicode_decimal : N -> option Z.

(** [sys.get_int_max_str_digits()]; 0 when the interpreter has no limit. *)
Variable int_max_str_digits : nat.

Definition is_digit (c : N) : bool :=
  match unicode_decimal c with
  | Some _ => true
  | None => false
  end.

Fixpoint take_digits (text : str) : str :=
  match text with
  | [] => []
  | c :: text' => if is_digit c then c :: take_digits text' else []
  end.

(** [re.search(r'\d+', text)] with [group(0)] of the match: the leftmost
    run of digits, as long as it goes. *)
Fixpoint re_search_digits (text : str) : option str :=
  match text with
  | [] => None
  | c :: text' =>
      if is_digit c then Some (c :: take_digits text')
      else re_search_digits text'
  end.

(** [int(s)] on a string of digits, the only strings the scraper converts:
    too long a string and any other character raise [ValueError]. *)
Definition py_int (s : str) : result Z :=
  if negb (int_max_str_digits =? 0)%nat
     && (int_max_str_digits <? List.length s)%nat
  then Raise "ValueError: Exceeds the limit for integer string conversion"
  else
    match s with
    | [] => Raise "ValueError: invalid literal for int() with base 10"
    | _ :: _ =>
        fold_left
          (fun acc c =>
             let* n := acc in
             match unicode_decimal c with
             | Some d => Ok (10 * n + d)%Z
             | None => Raise "ValueError: invalid literal for int() with base 10"
             end)
          s (Ok 0%Z)
    end.

Definition transform_age (age_text : option str) : result transformed :=
  match age_text with
  | None => Ok PyNone
  | Some [] => Ok PyNone
  | Some ((_ :: _) as age_text) =>
      let age_text := translate eastern_to_western_map age_text in
      match str_dict_get age_text age_map with
      | Some bucket => Ok (PyInt bucket)
      | None =>
          match re_search_digits age_text with
          | Some digits =>
              let* num_age := py_int digits in
              if (num_age =? 0)%Z then Ok (PyInt 0)
              else if ((num_age >=? 1) && (num_age <=? 5))%Z then Ok (PyInt 2)
              else if ((num_age >=? 6) && (num_age <=? 9))%Z then Ok (PyInt 3)
              else if ((num_age >=? 10) && (num_age <=? 19))%Z then Ok (PyInt 4)
              else if (num_age >=? 20)%Z then Ok (PyInt 5)
              else if existsb (Z.eqb num_age) [0; 1; 2; 3; 4; 5]%Z
              then Ok (PyInt num_age)
              else Ok (PyStr age_text)
          | None => Ok (PyStr age_text)
          end
      end
  end.

End Transformers.

(** A western digit, [0] to [9]. *)
Definition ascii_digit (c : N) : bool := ((48 <=? c) && (c <=? 57))%N.

(** A text of western or eastern Arabic digits, and the number it
    writes. *)
Definition arabic_digit (c : N) : option Z :=
  if ((48 <=? c) && (c <=? 57))%N then Some (Z.of_N c - 48)%Z
  else if ((1632 <=? c) && (c <=? 1641))%N then Some (Z.of_N c - 1632)%Z
  else None.

Definition numeral_value (text : str) : Z :=
  fold_left (fun n c => match arabic_digit c with
                        | Some d => (10 * n + d)%Z
                        | None => n
                        end) text 0%Z.

End Scrapper.

(** ** Binary64 facts *)

Lemma SFmul_comm (x y : spec_float) : SFmul prec emax x y = SFmul prec emax y x.
Proof.
  destruct x as [sx|sx| |sx mx ex], y as [sy|sy| |sy my ey]; simpl;
    try reflexivity; try (now rewrite xorb_comm).
  now rewrite xorb_comm, Pos.mul_comm, Z.add_comm.
Qed.

Lemma float_mul_comm (x y : float) : (x * y)%float = (y * x)%float.
Proof.
  apply Prim2SF_inj. rewrite !mul_spec. apply SFmul_comm.
Qed.

(** ** The age buckets *)
Lemma map_building_age_cases (age : Z) :
  (0 <= age)%Z ->
  (age = 0 /\ map_building_age age = 0)%Z \/
  (age = 1 /\ map_building_age age = 1)%Z \/
  (2 <= age <= 5 /\ map_building_age age = 2)%Z \/
  (6 <= age <= 9 /\ map_building_age age = 3)%Z \/
  (10 <= age <= 19 /\ map_building_age age = 4)%Z \/
  (20 <= age /\ map_building_age age = 5)%Z.
Proof.
  intros Hage. unfold map_building_age.
  destruct (Z.eqb_spec age 0) as [->|H0]; [now left|].
  destruct (Z.eqb_spec age 1) as [->|H1]; [now right; left|].
  destruct (Z.leb_spec 2 age); [|lia].
  destruct (Z.leb_spec age 5); simpl; [right; right; left; lia|].
  destruct (Z.leb_spec 6 age); [|lia].
  destruct (Z.leb_spec age 9); simpl; [right; right; right; left; lia|].
  destruct (Z.leb_spec 10 age); [|lia].
  destruct (Z.leb_spec age 19); simpl;
    [right; right; right; right; left; lia|].
  right; right; right; right; right; lia.
Qed.

(** C5: for every age of at least 0, [map_building_age] returns the
    ordinal of the bucket that holds the age, with the buckets {0}, {1},
    {2..5}, {6..9}, {10..19} and {20 and more} numbered 0 to 5, and it is
    monotone: a larger age never gets a smaller ordinal. *)
Theorem map_building_age_buckets_monotone :
  (forall age : Z, (0 <= age)%Z ->
     (age = 0 -> map_building_age age = 0)%Z /\
     (age = 1 -> map_building_age age = 1)%Z /\
     (2 <= age <= 5 -> map_building_age age = 2)%Z /\
     (6 <= age <= 9 -> map_building_age age = 3)%Z /\
     (10 <= age <= 19 -> map_building_age age = 4)%Z /\
     (20 <= age -> map_building_age age = 5)%Z) /\
  (forall a1 a2 : Z, (0 <= a1)%Z -> (a1 < a2)%Z ->
     (map_building_age a1 <= map_building_age a2)%Z).
Proof.
  split.
  - intros age Hage.
    destruct (map_building_age_cases age Hage)
      as [[? ->]|[[? ->]|[[? ->]|[[? ->]|[[? ->]|[? ->]]]]]];
      repeat split; intros; lia.
  - intros a1 a2 H0 Hlt.
    destruct (map_building_age_cases a1 H0)
      as [[? ->]|[[? ->]|[[? ->]|[[? ->]|[[? ->]|[? ->]]]]]];
      (destruct (map_building_age_cases a2 ltac:(lia))
        as [[? ->]|[[? ->]|[[? ->]|[[? ->]|[[? ->]|[? ->]]]]]]); lia.
Qed.


(** ** The judgment chain *)

(** The chain of [judge_price] is the rule list of the specification read
    first match first. *)
Lemma judgment_key_spec_rules (l p mn mean mx : float) :
  first_match (spec_rules l p mn mean mx) = Some (judgment_key l p mn mean mx).
Proof.
  unfold spec_rules, judgment_key; simpl.
  rewrite (float_mul_comm 0.9 mn), (float_mul_comm 0.7 mean),
    (float_mul_comm 0.85 mean), (float_mul_comm 0.95 p),
    (float_mul_comm 1.05 p), (float_mul_comm 0.95 mean).
  repeat match goal with |- context [if ?b then _ else _] => destruct b end;
    reflexivity.
Qed.

Lemma judgment_key_in_labels (l p mn mean mx : float) :
  In (judgment_key l p mn mean mx) rule_labels.
Proof.
  unfold judgment_key, rule_labels.
  repeat match goal with |- context [if ?b then _ else _] => destruct b end;
    simpl; auto 10.
Qed.

(** Rules 3 and 5 share their label, so the chain has six distinct labels. *)
Example six_distinct_labels :
  nodup string_dec rule_labels =
  [ "SUSPICIOUSLY_UNDERPRICED"; "FAIR_LOW"; "GOOD_DEAL"; "PREDICTED_PRICE";
    "FAIR_PRICE"; "OVERPRICED" ].
Proof. reflexivity. Qed.

(** ** Dictionaries *)

Lemma dict_get_set_same {V : Type} (k : string) (v : V) (d : dict V) :
  dict_get k (dict_set k v d) = Some v.
Proof.
  induction d as [|[k' v'] d IH]; simpl.
  - now rewrite String.eqb_refl.
  - destruct (String.eqb k' k) eqn:E; simpl.
    + now rewrite String.eqb_refl.
    + now rewrite E.
Qed.

Lemma dict_get_set_other {V : Type} (k k0 : string) (v : V) (d : dict V) :
  k <> k0 -> dict_get k0 (dict_set k v d) = dict_get k0 d.
Proof.
  intros Hne. induction d as [|[k' v'] d IH]; simpl.
  - destruct (String.eqb_spec k k0); [contradiction|reflexivity].
  - destruct (String.eqb_spec k' k) as [->|Hk]; simpl.
    + destruct (String.eqb_spec k k0); [contradiction|reflexivity].
    + destruct (String.eqb k' k0); [reflexivity|exact IH].
Qed.

Lemma dict_get_set {V : Type} (k k0 : string) (v : V) (d : dict V) :
  dict_get k0 (dict_set k v d) = if String.eqb k k0 then Some v else dict_get k0 d.
Proof.
  destruct (String.eqb_spec k k0) as [->|Hne].
  - apply dict_get_set_same.
  - now apply dict_get_set_other.
Qed.

(** Looking a key up after [{**d, **items}]: the last item under the key
    wins, then [d]. *)
Lemma dict_get_update {V : Type} (k : string) (items : list (string * V))
  (d : dict V) :
  dict_get k (dict_update d items) =
  match dict_get k (rev items) with
  | Some v => Some v
  | None => dict_get k d
  end.
Proof.
  unfold dict_update. revert d.
  induction items as [|[k' v'] items IH]; intros d; simpl; [reflexivity|].
  rewrite IH, dict_get_set.
  assert (Happ : forall l : dict V,
             dict_get k (l ++ [(k', v')]) =
             match dict_get k l with
             | Some v => Some v
             | None => if String.eqb k' k then Some v' else None
             end).
  { induction l as [|[k1 v1] l IHl]; simpl; [reflexivity|].
    destruct (String.eqb k1 k); [reflexivity|exact IHl]. }
  rewrite Happ. destruct (dict_get k (rev items)); [reflexivity|].
  destruct (String.eqb k' k); reflexivity.
Qed.

Lemma dict_get_In {V : Type} (k : string) (v : V) (d : dict V) :
  dict_get k d = Some v -> In (k, v) d.
Proof.
  induction d as [|[k' v'] d IH]; simpl; [discriminate|].
  destruct (String.eqb_spec k' k) as [->|Hne].
  - intros [= ->]. now left.
  - intros H. right. now apply IH.
Qed.

Lemma dict_get_None {V : Type} (k : string) (d : dict V) :
  dict_get k d = None <-> ~ In k (map fst d).
Proof.
  induction d as [|[k' v'] d IH]; simpl.
  - tauto.
  - destruct (String.eqb_spec k' k) as [->|Hne].
    + split; [discriminate|]. intros H. exfalso. apply H. now left.
    + rewrite IH. tauto.
Qed.

Lemma dict_get_combine_split {V : Type} (k : string) (d : dict V) :
  dict_get k (combine (map fst d) (map snd d)) = dict_get k d.
Proof.
  induction d as [|[k' v'] d IH]; simpl; [reflexivity|].
  now rewrite IH.
Qed.

(** A key fresh for the dictionary is appended by [dict_set]. *)
Lemma dict_set_fresh {V : Type} (k : string) (v : V) (d : dict V) :
  ~ In k (map fst d) -> dict_set k v d = d ++ [(k, v)].
Proof.
  induction d as [|[k' v'] d IH]; simpl; intros Hnot; [reflexivity|].
  destruct (String.eqb_spec k' k) as [->|Hne].
  - exfalso. apply Hnot. now left.
  - rewrite IH; [reflexivity|]. intros Hin. apply Hnot. now right.
Qed.

(** Items with pairwise distinct keys, none of them in [d], are appended in
    order. *)
Lemma dict_update_distinct {V : Type} (items : list (string * V)) (d : dict V) :
  NoDup (map fst items) ->
  (forall k, In k (map fst items) -> ~ In k (map fst d)) ->
  dict_update d items = d ++ items.
Proof.
  unfold dict_update. revert d.
  induction items as [|[k v] items IH]; intros d Hnd Hdisj; simpl.
  - now rewrite app_nil_r.
  - inversion Hnd as [|? ? Hk Hnd']; subst.
    rewrite dict_set_fresh by (apply Hdisj; now left).
    rewrite IH; [now rewrite <- app_assoc| exact Hnd' |].
    intros k0 Hk0. rewrite map_app, in_app_iff. simpl.
    intros [Hin|[->|[]]].
    + apply (Hdisj k0); [now right|exact Hin].
    + contradiction.
Qed.

Lemma dict_of_items_distinct {V : Type} (items : list (string * V)) :
  NoDup (map fst items) -> dict_of_items items = items.
Proof.
  intros Hnd. unfold dict_of_items.
  rewrite dict_update_distinct; [reflexivity|exact Hnd|].
  intros k _ [].
Qed.

(** ** Strings *)

Lemma prefix_append (s t : string) : String.prefix s (s ++ t) = true.
Proof.
  induction s as [|a s IH]; simpl.
  - now destruct t.
  - destruct (Ascii.ascii_dec a a); [exact IH|contradiction].
Qed.

Lemma existsb_eqb_In (k : string) (l : list string) :
  existsb (String.eqb k) l = true <-> In k l.
Proof.
  rewrite existsb_exists. split.
  - intros [x [Hin Heq]]. apply String.eqb_eq in Heq. now subst.
  - intros Hin. exists k. split; [exact Hin|apply String.eqb_refl].
Qed.

(** ** Well-formed dictionaries: every key once *)

Lemma map_fst_dict_set {V : Type} (k : string) (v : V) (d : dict V) :
  map fst (dict_set k v d) =
  if dict_mem k d then map fst d else map fst d ++ [k].
Proof.
  unfold dict_mem.
  induction d as [|[k' v'] d IH]; simpl; [reflexivity|].
  destruct (String.eqb_spec k' k) as [->|Hne]; simpl; [reflexivity|].
  rewrite IH. now destruct (dict_get k d).
Qed.

Lemma dict_mem_In {V : Type} (k : string) (d : dict V) :
  dict_mem k d = true <-> In k (map fst d).
Proof.
  unfold dict_mem. destruct (dict_get k d) eqn:E.
  - split; [intros _|reflexivity].
    apply dict_get_In in E. apply (in_map fst) in E. exact E.
  - apply dict_get_None in E. split; [discriminate|contradiction].
Qed.

Lemma NoDup_dict_set {V : Type} (k : string) (v : V) (d : dict V) :
  NoDup (map fst d) -> NoDup (map fst (dict_set k v d)).
Proof.
  intros Hnd. rewrite map_fst_dict_set.
  destruct (dict_mem k d) eqn:E; [exact Hnd|].
  apply NoDup_app; [exact Hnd|repeat constructor; intros []|].
  intros x Hx [<-|[]].
  apply dict_mem_In in Hx. congruence.
Qed.

Lemma NoDup_dict_update {V : Type} (items : list (string * V)) (d : dict V) :
  NoDup (map fst d) -> NoDup (map fst (dict_update d items)).
Proof.
  unfold dict_update. revert d.
  induction items as [|[k v] items IH]; intros d Hnd; simpl; [exact Hnd|].
  apply IH. now apply NoDup_dict_set.
Qed.

Lemma dict_get_Some_iff {V : Type} (k : string) (v : V) (d : dict V) :
  NoDup (map fst d) -> (dict_get k d = Some v <-> In (k, v) d).
Proof.
  intros Hnd. split; [apply dict_get_In|].
  induction d as [|[k' v'] d IH]; simpl; [intros []|].
  inversion Hnd as [|? ? Hk Hnd']; subst.
  intros [[= -> ->]|Hin].
  - now rewrite String.eqb_refl.
  - destruct (String.eqb_spec k' k) as [->|Hne]; [|now apply IH].
    exfalso. apply Hk. now apply (in_map fst) in Hin.
Qed.

Lemma dict_get_rev {V : Type} (k : string) (d : dict V) :
  NoDup (map fst d) -> dict_get k (rev d) = dict_get k d.
Proof.
  intros Hnd.
  assert (Hnd' : NoDup (map fst (rev d))) by (rewrite map_rev; now apply NoDup_rev).
  destruct (dict_get k d) as [v|] eqn:E.
  - apply dict_get_Some_iff; [exact Hnd'|]. rewrite <- in_rev.
    now apply dict_get_In.
  - apply dict_get_None. apply dict_get_None in E.
    rewrite map_rev, <- in_rev. exact E.
Qed.

Lemma dict_get_map_self {V : Type} (f : string -> V) (k : string)
  (l : list string) :
  dict_get k (map (fun c => (c, f c)) l) =
  if existsb (String.eqb k) l then Some (f k) else None.
Proof.
  induction l as [|c l IH]; simpl; [reflexivity|].
  rewrite (String.eqb_sym k c).
  destruct (String.eqb_spec c k) as [->|Hne]; simpl; [reflexivity|exact IH].
Qed.

Lemma combine_map_self {A B : Type} (f : A -> B) (l : list A) :
  combine l (map f l) = map (fun c => (c, f c)) l.
Proof. induction l as [|c l IH]; simpl; [reflexivity|now rewrite IH]. Qed.

(** With every element appearing once, at most one of them equals [a]. *)
Lemma filter_eqb_NoDup (a : string) (l : list string) :
  NoDup l ->
  filter (String.eqb a) l = if existsb (String.eqb a) l then [a] else [].
Proof.
  induction 1 as [|c l Hc Hnd IH]; simpl; [reflexivity|].
  destruct (String.eqb_spec a c) as [->|Hne]; simpl.
  - rewrite IH.
    destruct (existsb (String.eqb c) l) eqn:E; [|reflexivity].
    apply existsb_eqb_In in E. contradiction.
  - exact IH.
Qed.

Section EncoderProperties.

Variable feature_columns : list string.
Variable city_categories : list string.

Local Notation build := (build_model_input feature_columns city_categories).
Local Notation row' := (row city_categories).
Local Notation zero_city_cols' := (zero_city_cols city_categories).
Local Notation city_cols' := (city_cols city_categories).
Local Notation active_col' := (active_col city_categories).

Lemma build_model_input_unfold (p : PredictIn) :
  build p =
  {| columns := feature_columns;
     rows := [map (fun c => dict_get_default c (VInt 0) (row' p)) feature_columns] |}.
Proof.
  unfold build_model_input, reindex, DataFrame_of_row; simpl.
  do 2 f_equal. apply map_ext. intros c.
  unfold dict_get_default. now rewrite dict_get_combine_split.
Qed.

Lemma encoded_build (p : PredictIn) :
  encoded (build p) =
  map (fun c => (c, dict_get_default c (VInt 0) (row' p))) feature_columns.
Proof.
  rewrite build_model_input_unfold. unfold encoded; simpl.
  apply combine_map_self.
Qed.

Lemma base_row_keys (p : PredictIn) :
  map fst (base_row p) =
  [ "عدد الغرف"; "عدد الحمامات"; "مفروشة"; "مساحة البناء"; "الطابق";
    "عمر البناء"; "العقار مرهون"; "طريقة الدفع" ].
Proof. reflexivity. Qed.

Lemma base_row_no_city (p : PredictIn) (c : string) :
  is_city_col c = true -> dict_get c (base_row p) = None.
Proof.
  intros Hc. apply dict_get_None. rewrite base_row_keys.
  intros Hin. simpl in Hin.
  repeat (destruct Hin as [<-|Hin]; [discriminate Hc|]).
  exact Hin.
Qed.

Lemma NoDup_zero_city_cols : NoDup (map fst zero_city_cols').
Proof. apply NoDup_dict_update. constructor. Qed.

Lemma NoDup_city_cols (p : PredictIn) : NoDup (map fst (city_cols' p)).
Proof.
  unfold city_cols.
  destruct (existsb _ _); [now apply NoDup_dict_set, NoDup_zero_city_cols|].
  destruct (dict_mem _ _);
    [now apply NoDup_dict_set, NoDup_zero_city_cols|apply NoDup_zero_city_cols].
Qed.

Lemma dict_get_zero_city_cols (c : string) :
  dict_get c zero_city_cols' =
  if existsb (String.eqb c) (map (String.append CITY_PREFIX) city_categories)
  then Some (VInt 0) else None.
Proof.
  unfold zero_city_cols, dict_of_items.
  rewrite dict_get_update.
  change (dict_get c (@nil (string * value))) with (@None value).
  set (items := map (fun c0 => ((CITY_PREFIX ++ c0)%string, VInt 0)) city_categories).
  assert (Hkeys : map fst items = map (String.append CITY_PREFIX) city_categories).
  { unfold items. rewrite map_map. reflexivity. }
  destruct (existsb _ _) eqn:E.
  - apply existsb_eqb_In in E. rewrite <- Hkeys in E.
    destruct (dict_get c (rev items)) as [v|] eqn:G.
    + apply dict_get_In in G. rewrite <- in_rev in G.
      unfold items in G. apply in_map_iff in G.
      destruct G as [c0 [[= _ <-] _]]. reflexivity.
    + apply dict_get_None in G. rewrite map_rev, <- in_rev in G. contradiction.
  - destruct (dict_get c (rev items)) as [v|] eqn:G; [|reflexivity].
    apply dict_get_In in G. rewrite <- in_rev in G.
    apply (in_map fst) in G. rewrite Hkeys in G.
    change (fst (c, v)) with c in G.
    apply existsb_eqb_In in G. congruence.
Qed.

Lemma existsb_prefixed (k : string) (l : list string) :
  existsb (String.eqb (CITY_PREFIX ++ k)%string) (map (String.append CITY_PREFIX) l)
  = existsb (String.eqb k) l.
Proof.
  induction l as [|c l IH]; cbn [existsb map]; [reflexivity|].
  now rewrite IH.
Qed.

Lemma dict_mem_other_col :
  dict_mem other_col zero_city_cols' = existsb (String.eqb "أخرى") city_categories.
Proof.
  unfold dict_mem. rewrite dict_get_zero_city_cols.
  unfold other_col. rewrite existsb_prefixed.
  now destruct (existsb _ _).
Qed.

Lemma dict_get_city_cols (p : PredictIn) (c : string) :
  dict_get c (city_cols' p) =
  match active_col' p with
  | Some a => if String.eqb a c then Some (VInt 1) else dict_get c zero_city_cols'
  | None => dict_get c zero_city_cols'
  end.
Proof.
  unfold city_cols, active_col.
  destruct (existsb (String.eqb (المدينة p)) city_categories).
  - apply dict_get_set.
  - rewrite dict_mem_other_col.
    destruct (existsb (String.eqb "أخرى") city_categories); [|reflexivity].
    apply dict_get_set.
Qed.

Lemma active_col_is_city (p : PredictIn) (a : string) :
  active_col' p = Some a -> is_city_col a = true.
Proof.
  unfold active_col, is_city_col.
  destruct (existsb _ _);
    [intros [= <-]; exact (prefix_append CITY_PREFIX _)|].
  destruct (existsb _ _);
    [intros [= <-]; exact (prefix_append CITY_PREFIX _)|discriminate].
Qed.

(** The cell of a city indicator column: 1 under the active label, else 0. *)
Lemma city_cell (p : PredictIn) (c : string) :
  is_city_col c = true ->
  dict_get_default c (VInt 0) (row' p) =
  VInt (match active_col' p with
        | Some a => if String.eqb a c then 1 else 0
        | None => 0
        end).
Proof.
  intros Hc. unfold dict_get_default, row.
  rewrite dict_get_update, (dict_get_rev _ _ (NoDup_city_cols p)).
  rewrite dict_get_city_cols, (base_row_no_city p c Hc).
  rewrite dict_get_zero_city_cols.
  destruct (active_col' p) as [a|]; [destruct (String.eqb a c)|];
    try reflexivity; now destruct (existsb _ _).
Qed.

Lemma city_ones_build (p : PredictIn) :
  NoDup feature_columns ->
  city_ones (encoded (build p)) =
  match active_col' p with
  | Some a => if existsb (String.eqb a) feature_columns then [(a, VInt 1)] else []
  | None => []
  end.
Proof.
  intros Hnd. rewrite encoded_build. unfold city_ones.
  assert (Hfilter :
    filter (fun kv : string * value => is_city_col (fst kv) && value_eq_1 (snd kv))
      (map (fun c => (c, dict_get_default c (VInt 0) (row' p))) feature_columns) =
    map (fun c => (c, VInt 1))
      (filter (fun c => match active_col' p with
                        | Some a => String.eqb a c
                        | None => false
                        end) feature_columns)).
  { clear Hnd. induction feature_columns as [|c l IH]; simpl; [reflexivity|].
    rewrite IH. destruct (is_city_col c) eqn:Hc; simpl.
    - rewrite (city_cell p c Hc).
      destruct (active_col' p) as [a|]; [|reflexivity].
      destruct (String.eqb_spec a c) as [->|Hne]; reflexivity.
    - destruct (active_col' p) as [a|] eqn:Ha; [|reflexivity].
      destruct (String.eqb_spec a c) as [->|Hne]; [|reflexivity].
      apply active_col_is_city in Ha. congruence. }
  rewrite Hfilter. destruct (active_col' p) as [a|].
  - rewrite (filter_ext (fun c => String.eqb a c) (String.eqb a)
               (fun _ => eq_refl)).
    rewrite (filter_eqb_NoDup a _ Hnd). now destruct (existsb _ _).
  - clear. induction feature_columns; simpl; auto.
Qed.

End EncoderProperties.

(** ** The market grid *)

Lemma for_grid_map {A B : Type} (f : A -> B)
  (body : Z -> Z -> Z -> Z -> Z -> Z -> Z -> A) :
  for_grid (fun rooms baths age floor furnished payment mortgaged =>
              f (body rooms baths age floor furnished payment mortgaged)) =
  map f (for_grid body).
Proof. reflexivity. Qed.

Lemma for_grid_length {A : Type} (body : Z -> Z -> Z -> Z -> Z -> Z -> Z -> A) :
  List.length (for_grid body) = 4320%nat.
Proof. reflexivity. Qed.

Lemma in_for_grid {A : Type} (body : Z -> Z -> Z -> Z -> Z -> Z -> Z -> A)
  (y : A) :
  In y (for_grid body) <->
  exists rooms baths age floor furnished payment mortgaged,
    In rooms [1; 2; 3; 4]%Z /\ In baths [1; 2; 3]%Z /\
    In age [0; 5; 9; 19; 20]%Z /\ In floor [0; 1; 2; 3; 4; 11]%Z /\
    In furnished [0; 1]%Z /\ In payment [0; 1; 2]%Z /\
    In mortgaged [0; 1]%Z /\
    y = body rooms baths age floor furnished payment mortgaged.
Proof.
  unfold for_grid.
  change (py_range 1 5) with [1; 2; 3; 4]%Z.
  change (py_range 1 4) with [1; 2; 3]%Z.
  split.
  - intros H.
    apply in_flat_map in H as [rooms [H1 H]].
    apply in_flat_map in H as [baths [H2 H]].
    apply in_flat_map in H as [age [H3 H]].
    apply in_flat_map in H as [floor [H4 H]].
    apply in_flat_map in H as [furnished [H5 H]].
    apply in_flat_map in H as [payment [H6 H]].
    apply in_map_iff in H as [mortgaged [<- H7]].
    exists rooms, baths, age, floor, furnished, payment, mortgaged.
    repeat (split; [assumption|]). reflexivity.
  - intros (rooms & baths & age & floor & furnished & payment & mortgaged
            & H1 & H2 & H3 & H4 & H5 & H6 & H7 & ->).
    apply in_flat_map; exists rooms; split; [exact H1|].
    apply in_flat_map; exists baths; split; [exact H2|].
    apply in_flat_map; exists age; split; [exact H3|].
    apply in_flat_map; exists floor; split; [exact H4|].
    apply in_flat_map; exists furnished; split; [exact H5|].
    apply in_flat_map; exists payment; split; [exact H6|].
    apply in_map_iff; exists mortgaged; split; [reflexivity|exact H7].
Qed.

Lemma distinctb_NoDup {A : Type} (eqb : A -> A -> bool) (l : list A) :
  (forall x, eqb x x = true) -> distinctb eqb l = true -> NoDup l.
Proof.
  intros Hrefl. induction l as [|x l IH]; simpl; intros H; constructor.
  - apply andb_prop in H as [H _]. intros Hin.
    assert (E : existsb (eqb x) l = true).
    { apply existsb_exists. exists x. split; [exact Hin|apply Hrefl]. }
    rewrite E in H. discriminate H.
  - apply andb_prop in H as [_ H]. now apply IH.
Qed.

Lemma coords_eqb_refl (t : Z * Z * Z * Z * Z * Z * Z) : coords_eqb t t = true.
Proof.
  destruct t as [[[[[[a b] c] d] e] f] g]. unfold coords_eqb.
  now rewrite !Z.eqb_refl.
Qed.

Lemma grid_points_distinct :
  NoDup (for_grid (fun rooms baths age floor furnished payment mortgaged =>
                     (rooms, baths, age, floor, furnished, payment, mortgaged))).
Proof.
  apply (distinctb_NoDup coords_eqb); [exact coords_eqb_refl|].
  vm_compute. reflexivity.
Qed.

Section HandlerProperties.

Variable feature_columns : list string.
Variable city_categories : list string.
Variable final_model_predict : DataFrame -> result (list float).
Variable py_round2 : float -> float.
Variable np_min np_max np_mean np_median : list float -> result float.
Variable np_percentile : list float -> Z -> result float.
Variable np_histogram : list float -> nat -> result (list Z * list float).

Local Notation build := (build_model_input feature_columns city_categories).
Local Notation variants' := (variants feature_columns city_categories).
Local Notation simulated_prices' :=
  (simulated_prices feature_columns city_categories final_model_predict).
Local Notation estimates' :=
  (estimates feature_columns city_categories final_model_predict).
Local Notation judge_price' :=
  (judge_price feature_columns city_categories final_model_predict py_round2
     np_min np_max np_mean np_median np_percentile np_histogram).
Local Notation judge_binds' :=
  (judge_binds feature_columns city_categories final_model_predict
     np_min np_max np_mean np_median np_percentile np_histogram).
Local Notation judge_response' := (judge_response py_round2).
Local Notation r' := (r py_round2).

(** [judge_price] answers exactly when every call it makes returns, and
    then with the response built from the returned values. *)
Lemma judge_price_Ok (payload : JudgeIn) (out : JudgeOut.t) :
  judge_price' payload = Ok out <->
  exists t, judge_binds' payload t /\ out = judge_response' payload t.
Proof.
  split.
  - intros H. unfold judge_price in H. bind_inv H.
    cbv zeta in H. injection H as <-.
    destruct x6 as [cs es].
    exists {| predicted_prices := x; price_min := x0; price_max := x1;
              price_mean := x2; price_median := x3; price_q1 := x4;
              price_q3 := x5; hist_counts := cs; hist_edges := es;
              point_estimate := x8 |}.
    split; [|reflexivity].
    unfold judge_binds, estimates; cbn.
    repeat (split; [assumption|]). now exists x7.
  - intros [t [Hb ->]]. destruct t. unfold judge_binds, estimates in Hb.
    cbn in Hb.
    destruct Hb as (H1 & H2 & H3 & H4 & H5 & H6 & H7 & H8 & ys & H9 & H10).
    unfold judge_price.
    rewrite H1; cbn [bind]. rewrite H2; cbn [bind]. rewrite H3; cbn [bind].
    rewrite H4; cbn [bind]. rewrite H5; cbn [bind]. rewrite H6; cbn [bind].
    rewrite H7; cbn [bind]. rewrite H8; cbn [bind]. rewrite H9; cbn [bind].
    rewrite H10; cbn [bind]. reflexivity.
Qed.

(** The scalars, the model and the explainer of [predict]. *)
Context {S : Type} {scalar_S : Scalar S}.
Context {F : Type} {number_F : Number F}.
Variable model_predict : DataFrame -> result (list S).
Variable explainer_values : DataFrame -> result (list F).
Variable attribution_float : F -> float.

Local Notation predict' :=
  (predict feature_columns city_categories model_predict explainer_values
     attribution_float).
Local Notation model_output' :=
  (model_output feature_columns city_categories model_predict).

Lemma predict_Ok (payload : PredictIn) (out : PredictOut.t) :
  predict' payload = Ok out ->
  exists y, model_output' payload y /\
            PredictOut.predicted_price out =
            scalar_float (scalar_round2 (scalar_surcharge payload y)).
Proof.
  intros H. unfold predict in H. bind_inv H.
  injection H as <-. exists x0. split; [|reflexivity].
  now exists x.
Qed.

(** C2: the market simulation encodes one variant per point of the
    seven-dimensional grid, 4320 in all, each point once; every variant
    carries the request's city, building area and parking flag. *)
Theorem market_grid_is_cartesian (payload : JudgeIn) :
  List.length (variants' payload) = 4320%nat /\
  variants' payload = map (fun v : JudgeIn => build v) (grid_payloads payload) /\
  NoDup (map coords (grid_payloads payload)) /\
  (forall rooms baths age floor furnished payment mortgaged : Z,
     In (rooms, baths, age, floor, furnished, payment, mortgaged)
        (map coords (grid_payloads payload)) <->
     In rooms [1; 2; 3; 4]%Z /\ In baths [1; 2; 3]%Z /\
     In age [0; 5; 9; 19; 20]%Z /\ In floor [0; 1; 2; 3; 4; 11]%Z /\
     In furnished [0; 1]%Z /\ In payment [0; 1; 2]%Z /\
     In mortgaged [0; 1]%Z) /\
  Forall (fun v : JudgeIn =>
            المدينة v = المدينة payload /\
            مساحة_البناء v = مساحة_البناء payload /\
            موقف_سيارات v = موقف_سيارات payload)
         (grid_payloads payload).
Proof.
  assert (Hcoords :
    map coords (grid_payloads payload) =
    for_grid (fun rooms baths age floor furnished payment mortgaged =>
                (rooms, baths, age, floor, furnished, payment, mortgaged))).
  { unfold grid_payloads. rewrite <- for_grid_map. reflexivity. }
  split; [apply for_grid_length|].
  split; [exact (for_grid_map (fun v : JudgeIn => build v) (variant payload))|].
  split; [rewrite Hcoords; exact grid_points_distinct|].
  split.
  - intros rooms baths age floor furnished payment mortgaged.
    rewrite Hcoords, in_for_grid. split.
    + intros (a & b & c & d & e & f & g & H1 & H2 & H3 & H4 & H5 & H6 & H7 & Heq).
      injection Heq as -> -> -> -> -> -> ->. tauto.
    + intros (H1 & H2 & H3 & H4 & H5 & H6 & H7).
      exists rooms, baths, age, floor, furnished, payment, mortgaged. tauto.
  - apply Forall_forall. intros v Hv. unfold grid_payloads in Hv.
    apply in_for_grid in Hv
      as (a & b & c & d & e & f & g & _ & _ & _ & _ & _ & _ & _ & ->).
    repeat split.
Qed.

(** C4: the encoded vector carries exactly the columns of the feature
    schema, in schema order; a schema column the encoder produced holds the
    produced value, any other schema column holds 0, and no column outside
    the schema survives. *)
Theorem build_model_input_schema_aligned (p : PredictIn) :
  columns (build p) = feature_columns /\
  rows (build p) =
    [map (fun c => match dict_get c (row city_categories p) with
                   | Some v => v
                   | None => VInt 0
                   end) feature_columns] /\
  (forall c v, In c feature_columns ->
     dict_get c (row city_categories p) = Some v ->
     dict_get c (encoded (build p)) = Some v) /\
  (forall c, In c feature_columns ->
     ~ In c (map fst (row city_categories p)) ->
     dict_get c (encoded (build p)) = Some (VInt 0)) /\
  (forall c, ~ In c feature_columns -> ~ In c (columns (build p))).
Proof.
  rewrite encoded_build, build_model_input_unfold. cbn [columns rows].
  split; [reflexivity|]. split; [reflexivity|].
  split; [|split].
  - intros c v Hin Hget. rewrite dict_get_map_self.
    apply existsb_eqb_In in Hin. rewrite Hin.
    unfold dict_get_default. now rewrite Hget.
  - intros c Hin Hnot. rewrite dict_get_map_self.
    apply existsb_eqb_In in Hin. rewrite Hin.
    apply dict_get_None in Hnot. unfold dict_get_default. now rewrite Hnot.
  - intros c Hnot. exact Hnot.
Qed.

(** C10: the parking flag never reaches the encoder: two payloads that
    differ in nothing but the flag have the same encoded vector, the same
    encoded grid variants and the same simulated prices, and [judge_price]
    binds the same values for both, so that the flag acts only through the
    surcharge applied after prediction. *)
Theorem build_model_input_ignores_parking :
  (forall (p : PredictIn) (flag : option Z),
     build (with_parking p flag) = build p) /\
  (forall p1 p2 : PredictIn,
     with_parking p1 None = with_parking p2 None -> build p1 = build p2) /\
  (forall (j : JudgeIn) (flag : option Z),
     variants' (judge_with_parking j flag) = variants' j /\
     simulated_prices' (judge_with_parking j flag) = simulated_prices' j /\
     forall t, judge_binds' (judge_with_parking j flag) t <-> judge_binds' j t).
Proof.
  assert (Hb : forall (p : PredictIn) (flag : option Z),
             build (with_parking p flag) = build p) by reflexivity.
  assert (Hv : forall (j : JudgeIn) (flag : option Z),
             variants' (judge_with_parking j flag) = variants' j).
  { intros j flag. unfold variants. reflexivity. }
  assert (Hs : forall (j : JudgeIn) (flag : option Z),
             simulated_prices' (judge_with_parking j flag) = simulated_prices' j).
  { intros j flag. unfold simulated_prices. now rewrite Hv. }
  split; [exact Hb|]. split.
  - intros p1 p2 Heq.
    rewrite <- (Hb p1 None), <- (Hb p2 None). now rewrite Heq.
  - intros j flag. split; [apply Hv|]. split; [apply Hs|].
    intros t. unfold judge_binds, estimates. rewrite Hs.
    change (build (judge_with_parking j flag)) with (build j). reflexivity.
Qed.

(** C1: the judgment label is the label of the first rule of the ordered
    chain whose condition holds, for all binary64 inputs, and it is one of
    the labels of the seven rules; the response of [judge_price] carries
    that label for the listed price, the surcharged point estimate and the
    minimum, mean and maximum of the simulated prices. *)
Theorem judgment_is_first_matching_rule :
  (forall l p mn mean mx : float,
     first_match (spec_rules l p mn mean mx) = Some (judgment_key l p mn mean mx) /\
     In (judgment_key l p mn mean mx) rule_labels) /\
  (forall (payload : JudgeIn) (out : JudgeOut.t),
     judge_price' payload = Ok out ->
     exists t, judge_binds' payload t /\
       first_match
         (spec_rules (listed_price payload)
            (parking_surcharge payload (point_estimate t))
            (price_min t) (price_mean t) (price_max t))
       = Some (JudgeOut.judgment_key out) /\
       In (JudgeOut.judgment_key out) rule_labels).
Proof.
  split.
  - intros l p mn mean mx.
    split; [apply judgment_key_spec_rules|apply judgment_key_in_labels].
  - intros payload out H. apply judge_price_Ok in H as [t [Hb ->]].
    exists t. split; [exact Hb|]. cbn [judge_response JudgeOut.judgment_key].
    split; [apply judgment_key_spec_rules|apply judgment_key_in_labels].
Qed.

(** C3, as the code has it: for a schema that lists every column once, at
    most one city indicator of the encoded vector is 1.  When the category
    set has the payload's city, the indicator of that city is 1 and every
    other city indicator is 0; otherwise, when the category set has the
    category [أخرى], the indicator [المدينة_أخرى] is 1 and every other is 0;
    otherwise every city indicator is 0.  An indicator is part of the vector
    only if the schema lists it, and the encoder always returns one row. *)
Theorem city_indicators_one_hot :
  NoDup feature_columns ->
  forall p : PredictIn,
    let vec := encoded (build p) in
    (exists cells, rows (build p) = [cells]) /\
    (List.length (city_ones vec) <= 1)%nat /\
    (In (المدينة p) city_categories ->
     forall c, In c feature_columns -> is_city_col c = true ->
       dict_get c vec =
       Some (VInt (if String.eqb (CITY_PREFIX ++ المدينة p) c then 1 else 0))) /\
    (~ In (المدينة p) city_categories -> In "أخرى" city_categories ->
     forall c, In c feature_columns -> is_city_col c = true ->
       dict_get c vec = Some (VInt (if String.eqb other_col c then 1 else 0))) /\
    (~ In (المدينة p) city_categories -> ~ In "أخرى" city_categories ->
     forall c, In c feature_columns -> is_city_col c = true ->
       dict_get c vec = Some (VInt 0)).
Proof.
  intros Hnd p vec.
  assert (Hcell : forall c, In c feature_columns -> is_city_col c = true ->
            dict_get c vec =
            Some (VInt (match active_col city_categories p with
                        | Some a => if String.eqb a c then 1 else 0
                        | None => 0
                        end))).
  { intros c Hin Hc. unfold vec. rewrite encoded_build, dict_get_map_self.
    apply existsb_eqb_In in Hin. rewrite Hin. now rewrite city_cell. }
  split; [rewrite build_model_input_unfold; now eexists|].
  split.
  { unfold vec. rewrite (city_ones_build _ _ p Hnd).
    destruct (active_col city_categories p); [|simpl; lia].
    destruct (existsb _ _); simpl; lia. }
  unfold active_col in Hcell.
  split; [|split].
  - intros Hcity c Hin Hc. rewrite (Hcell c Hin Hc).
    apply existsb_eqb_In in Hcity. now rewrite Hcity.
  - intros Hcity Hother c Hin Hc. rewrite (Hcell c Hin Hc).
    destruct (existsb (String.eqb (المدينة p)) city_categories) eqn:E;
      [apply existsb_eqb_In in E; contradiction|].
    apply existsb_eqb_In in Hother. now rewrite Hother.
  - intros Hcity Hother c Hin Hc. rewrite (Hcell c Hin Hc).
    destruct (existsb (String.eqb (المدينة p)) city_categories) eqn:E;
      [apply existsb_eqb_In in E; contradiction|].
    destruct (existsb (String.eqb "أخرى") city_categories) eqn:E';
      [apply existsb_eqb_In in E'; contradiction|reflexivity].
Qed.

(** C7, as the code has it: in a Judge response the listed price, the
    predicted price, the market mean and median, both quartiles and both
    ends of the price range are the two-decimal roundings [r] of the values
    computed for the request; the histogram counts and the eleven edge
    values are passed on as [np.histogram] returned them. *)
Theorem judge_response_rounding (payload : JudgeIn) (out : JudgeOut.t) :
  judge_price' payload = Ok out ->
  exists t, judge_binds' payload t /\
    JudgeOut.listed_price out = r' (listed_price payload) /\
    JudgeOut.predicted_price out =
      r' (parking_surcharge payload (point_estimate t)) /\
    JudgeOut.market_mean out = r' (price_mean t) /\
    JudgeOut.market_median out = r' (price_median t) /\
    JudgeOut.price_q1 out = r' (price_q1 t) /\
    JudgeOut.price_q3 out = r' (price_q3 t) /\
    JudgeOut.price_range out = [r' (price_min t); r' (price_max t)] /\
    JudgeOut.counts (JudgeOut.hist out) = hist_counts t /\
    JudgeOut.edges (JudgeOut.hist out) = hist_edges t.
Proof.
  intros H. apply judge_price_Ok in H as [t [Hb ->]].
  exists t. split; [exact Hb|]. cbn. repeat split.
Qed.

(** C8, as the code has it: in both operations the returned predicted price
    is the two-decimal rounding of the model's point estimate for the
    request, the estimate being multiplied by 1.011 first exactly when the
    parking flag is 1; with the flag 0 or absent the estimate is rounded
    unmodified.  [predict] multiplies and rounds ([np.round]) the model's
    output in the arithmetic of the numpy scalar the model returned, and
    converts the result to [float]; [judge_price] converts the model's
    output to [float] first, and multiplies and rounds (builtin [round]) in
    binary64. *)
Theorem predicted_price_surcharge :
  (forall (payload : PredictIn) (out : PredictOut.t),
     predict' payload = Ok out ->
     exists y : S, model_output' payload y /\
       (موقف_سيارات payload = Some 1%Z ->
        PredictOut.predicted_price out =
        scalar_float (scalar_round2 (scalar_mul y 1.011%float))) /\
       (موقف_سيارات payload = Some 0%Z \/ موقف_سيارات payload = None ->
        PredictOut.predicted_price out = scalar_float (scalar_round2 y))) /\
  (forall (payload : JudgeIn) (out : JudgeOut.t),
     judge_price' payload = Ok out ->
     exists y, estimates' payload y /\
       (موقف_سيارات payload = Some 1%Z ->
        JudgeOut.predicted_price out = py_round2 (y * 1.011)%float) /\
       (موقف_سيارات payload = Some 0%Z \/ موقف_سيارات payload = None ->
        JudgeOut.predicted_price out = py_round2 y)).
Proof.
  split.
  - intros payload out H. apply predict_Ok in H as [y [Hy ->]].
    exists y. split; [exact Hy|]. unfold scalar_surcharge.
    split; [intros ->; reflexivity|intros [-> | ->]; reflexivity].
  - intros payload out H. apply judge_price_Ok in H as [t [Hb ->]].
    exists (point_estimate t). split; [apply Hb|].
    cbn [judge_response JudgeOut.predicted_price]. unfold parking_surcharge, r.
    split; [intros ->; reflexivity|intros [-> | ->]; reflexivity].
Qed.

Lemma build_one_row (p : PredictIn) : List.length (rows (build p)) = 1%nat.
Proof. now rewrite build_model_input_unfold. Qed.

Lemma flat_map_rows_length (frames : list DataFrame) :
  Forall (fun f => List.length (rows f) = 1%nat) frames ->
  List.length (flat_map rows frames) = List.length frames.
Proof.
  induction 1 as [|f frames Hf _ IH]; simpl; [reflexivity|].
  rewrite length_app, Hf, IH. reflexivity.
Qed.

(** The batch handed to the model has one row per grid point. *)
Lemma all_df_rows (payload : JudgeIn) (all_df : DataFrame) :
  pd_concat (variants' payload) = Ok all_df ->
  List.length (rows all_df) = 4320%nat.
Proof.
  assert (Hlen : List.length (flat_map rows (variants' payload)) = 4320%nat);
    [|unfold pd_concat; destruct (variants' payload); [discriminate|];
      intros [= <-]; exact Hlen].
  rewrite flat_map_rows_length.
  - apply for_grid_length.
  - unfold variants. rewrite (for_grid_map (fun v : JudgeIn => build v)).
    apply Forall_forall. intros df Hdf. apply in_map_iff in Hdf as [v [<- _]].
    apply build_one_row.
Qed.

(** C9: given that the model returns one price per row and that
    [np.histogram] with [bins=10] returns ten counts that add up to the
    number of values and eleven edges, the histogram of every Judge response
    has ten counts, eleven edges, and counts adding up to 4320. *)
Theorem judge_histogram_conserves_samples :
  (forall df ys, final_model_predict df = Ok ys ->
     List.length ys = List.length (rows df)) ->
  (forall xs counts edges, np_histogram xs 10 = Ok (counts, edges) ->
     List.length counts = 10%nat /\ List.length edges = 11%nat /\
     sumZ counts = Z.of_nat (List.length xs)) ->
  forall (payload : JudgeIn) (out : JudgeOut.t),
    judge_price' payload = Ok out ->
    List.length (JudgeOut.counts (JudgeOut.hist out)) = 10%nat /\
    List.length (JudgeOut.edges (JudgeOut.hist out)) = 11%nat /\
    sumZ (JudgeOut.counts (JudgeOut.hist out)) = 4320%Z.
Proof.
  intros Hmodel Hhist payload out H.
  apply judge_price_Ok in H as [t [Hb ->]].
  destruct Hb as (Hsim & _ & _ & _ & _ & _ & _ & Hh & _).
  cbn [judge_response JudgeOut.hist JudgeOut.counts JudgeOut.edges].
  destruct (Hhist _ _ _ Hh) as (Hc & He & Hs).
  split; [exact Hc|]. split; [exact He|]. rewrite Hs.
  unfold simulated_prices in Hsim.
  destruct (pd_concat (variants' payload)) as [all_df|] eqn:E;
    [cbn [bind] in Hsim|discriminate].
  rewrite (Hmodel _ _ Hsim), (all_df_rows _ _ E). reflexivity.
Qed.

End HandlerProperties.

(** ** The concrete deployment meets the contracts assumed of the model and
    of numpy *)

Lemma demo_columns_distinct : NoDup Demo.feature_columns.
Proof.
  apply (distinctb_NoDup String.eqb); [exact String.eqb_refl|].
  vm_compute. reflexivity.
Qed.

Lemma stub_predict_rows (unit_price : float) (df : DataFrame) (ys : list float) :
  Demo.stub_predict unit_price df = Ok ys ->
  List.length ys = List.length (rows df).
Proof. intros [= <-]. apply length_map. Qed.

Lemma sumZ_map_add {A : Type} (g h : A -> Z) (l : list A) :
  sumZ (map (fun i => (g i + h i)%Z) l) = (sumZ (map g l) + sumZ (map h l))%Z.
Proof. induction l as [|a l IH]; simpl; [reflexivity|]. rewrite IH. lia. Qed.

Lemma sumZ_indicator (k start n : nat) :
  sumZ (map (fun i => if Nat.eqb k i then 1%Z else 0%Z) (seq start n)) =
  if (Nat.leb start k && Nat.ltb k (start + n))%bool then 1%Z else 0%Z.
Proof.
  revert start. induction n as [|n IH]; intros start; simpl.
  - destruct (Nat.leb_spec start k), (Nat.ltb_spec k (start + 0)); simpl;
      try reflexivity; lia.
  - rewrite IH.
    destruct (Nat.eqb_spec k start), (Nat.leb_spec (S start) k),
      (Nat.ltb_spec k (S start + n)), (Nat.leb_spec start k),
      (Nat.ltb_spec k (start + S n)); simpl; try reflexivity; lia.
Qed.

(** Counting the values bin by bin counts every value once. *)
Lemma bin_counts_total {A : Type} (bin : A -> nat) (n : nat) (xs : list A) :
  Forall (fun x => (bin x < n)%nat) xs ->
  sumZ (map (fun i => Z.of_nat (List.length (filter (fun x => Nat.eqb (bin x) i) xs)))
            (seq 0 n)) = Z.of_nat (List.length xs).
Proof.
  induction 1 as [|x xs Hx _ IH].
  - simpl. induction (seq 0 n) as [|i l IHl]; simpl; [reflexivity|exact IHl].
  - rewrite (map_ext _ (fun i =>
       ((if Nat.eqb (bin x) i then 1 else 0) +
        Z.of_nat (List.length (filter (fun x0 => Nat.eqb (bin x0) i) xs)))%Z)).
    + rewrite sumZ_map_add, IH, sumZ_indicator.
      replace (Nat.leb 0 (bin x) && Nat.ltb (bin x) (0 + n))%bool with true.
      * change (List.length (x :: xs)) with (S (List.length xs)). lia.
      * symmetry. apply andb_true_intro.
        split; [reflexivity|apply Nat.ltb_lt; lia].
    + intros i. cbn [filter]. destruct (Nat.eqb (bin x) i); cbn [List.length]; lia.
Qed.

Lemma hist_edges_length (first last : float) (bins : nat) :
  List.length (Demo.hist_edges first last bins) = S bins.
Proof.
  unfold Demo.hist_edges. rewrite length_app, length_map, length_seq.
  simpl. lia.
Qed.

Lemma bin_index_bound (inner : list float) (x : float) :
  (Demo.bin_index inner x <= List.length inner)%nat.
Proof. unfold Demo.bin_index. apply filter_length_le. Qed.

Lemma Ok_pair_inv {A B : Type} (a a' : A) (b b' : B) :
  Ok (a, b) = Ok (a', b') -> a = a' /\ b = b'.
Proof. intros [= -> ->]. now split. Qed.

Lemma demo_histogram_contract (xs : list float) (bins : nat)
  (counts : list Z) (edges : list float) :
  Demo.np_histogram xs bins = Ok (counts, edges) ->
  List.length counts = bins /\ List.length edges = S bins /\
  sumZ counts = Z.of_nat (List.length xs).
Proof.
  unfold Demo.np_histogram. destruct bins as [|b]; [discriminate|].
  destruct xs as [|x xs].
  - cbn [Demo.np_min Demo.np_max]. intros H.
    apply Ok_pair_inv in H as [<- <-].
    rewrite length_map, length_seq, hist_edges_length.
    repeat split. clear. induction (seq 0 (S b)); simpl; auto.
  - cbn [Demo.np_min Demo.np_max].
    destruct (negb _); [discriminate|]. intros H.
    apply Ok_pair_inv in H as [<- <-].
    rewrite length_map, length_seq, hist_edges_length.
    repeat split. apply bin_counts_total.
    apply Forall_forall. intros y _.
    eapply Nat.le_lt_trans; [apply bin_index_bound|].
    rewrite length_firstn. lia.
Qed.

(** ** Runs of the handlers on the concrete deployment *)

(** The example request passes the validation of the handlers. *)
Lemma demo_request_valid : valid_JudgeIn (Demo.judge_request 3000).
Proof.
  unfold valid_JudgeIn, valid_PredictIn; cbn.
  repeat split; try lia; reflexivity.
Qed.

(** Its encoding: age 7 falls in bucket 3, and city [X] sets no indicator. *)
Example encoded_request :
  build_model_input Demo.feature_columns Demo.city_categories Demo.request =
  {| columns := Demo.feature_columns;
     rows := [[VInt 3; VInt 2; VInt 1; VFloat 120; VInt 2; VInt 3; VInt 0;
               VInt 0; VInt 0; VInt 0; VInt 0]] |}.
Proof. reflexivity. Qed.

(** A listing offered at 50000 in a market with mean 200000 is far below
    0.7 times the mean. *)
Example far_below_mean :
  judgment_key 50000 210000 100000 200000 300000 = "SUSPICIOUSLY_UNDERPRICED".
Proof. reflexivity. Qed.

Lemma map_building_age_witness :
  map_building_age 7 = 3%Z /\ (map_building_age 5 <= map_building_age 6)%Z.
Proof.
  destruct map_building_age_buckets_monotone as [Hbucket Hmono].
  split.
  - apply (Hbucket 7%Z); lia.
  - apply (Hmono 5%Z 6%Z); lia.
Defined.

(** The specification's scenario: a model pricing 1000 per room, a
    three-room listing offered at 3000. *)
Lemma judgment_witness :
  exists out, Demo.judge 1000 (Demo.judge_request 3000) = Ok out /\
    JudgeOut.judgment_key out = "PREDICTED_PRICE" /\
    exists t,
      judge_binds Demo.feature_columns Demo.city_categories
        (Demo.stub_predict 1000) Demo.np_min Demo.np_max Demo.np_mean
        Demo.np_median Demo.np_percentile Demo.np_histogram
        (Demo.judge_request 3000) t /\
      first_match
        (spec_rules 3000 (parking_surcharge Demo.request (point_estimate t))
           (price_min t) (price_mean t) (price_max t))
      = Some (JudgeOut.judgment_key out) /\
      In (JudgeOut.judgment_key out) rule_labels.
Proof.
  eexists. split; [vm_compute; reflexivity|]. split; [reflexivity|].
  apply (proj2 (judgment_is_first_matching_rule
                  Demo.feature_columns Demo.city_categories
                  (Demo.stub_predict 1000) Demo.round2 Demo.np_min Demo.np_max
                  Demo.np_mean Demo.np_median Demo.np_percentile
                  Demo.np_histogram)
               (Demo.judge_request 3000)).
  vm_compute. reflexivity.
Defined.

Lemma city_indicators_witness :
  (List.length
     (city_ones
        (encoded (build_model_input Demo.feature_columns Demo.city_categories
                    (Demo.request_of "نابلس" None)))) <= 1)%nat /\
  dict_get "المدينة_نابلس"
    (encoded (build_model_input Demo.feature_columns Demo.city_categories
                (Demo.request_of "نابلس" None))) = Some (VInt 1) /\
  dict_get "المدينة_رام الله"
    (encoded (build_model_input Demo.feature_columns Demo.city_categories
                (Demo.request_of "نابلس" None))) = Some (VInt 0).
Proof.
  destruct (city_indicators_one_hot Demo.feature_columns Demo.city_categories
              demo_columns_distinct (Demo.request_of "نابلس" None))
    as (_ & Hle & Hcity & _ & _).
  split; [exact Hle|].
  split.
  - apply (Hcity ltac:(simpl; tauto) "المدينة_نابلس");
      [simpl; tauto|reflexivity].
  - apply (Hcity ltac:(simpl; tauto) "المدينة_رام الله");
      [simpl; tauto|reflexivity].
Defined.

(** The schema has the column [المدينة_أخرى], the category set lacks both
    the city [X] and the category [أخرى]: the column stays 0. *)
Lemma other_column_not_set :
  In other_col Demo.feature_columns /\
  dict_get other_col
    (encoded (build_model_input Demo.feature_columns Demo.city_categories
                Demo.request)) = Some (VInt 0) /\
  ~ one_hot_as_specified Demo.feature_columns Demo.city_categories Demo.request.
Proof.
  split; [vm_compute; tauto|]. split; [reflexivity|].
  unfold one_hot_as_specified. intros [_ H]. vm_compute in H. discriminate H.
Qed.

Lemma judge_response_rounding_witness :
  exists out, Demo.judge 1000.125 (Demo.judge_request 3000) = Ok out /\
    JudgeOut.price_range out = [1000.12; 4000.5]%float /\
    exists t,
      judge_binds Demo.feature_columns Demo.city_categories
        (Demo.stub_predict 1000.125) Demo.np_min Demo.np_max Demo.np_mean
        Demo.np_median Demo.np_percentile Demo.np_histogram
        (Demo.judge_request 3000) t /\
      JudgeOut.listed_price out = Demo.round2 3000 /\
      JudgeOut.predicted_price out =
        Demo.round2 (parking_surcharge Demo.request (point_estimate t)) /\
      JudgeOut.market_mean out = Demo.round2 (price_mean t) /\
      JudgeOut.market_median out = Demo.round2 (price_median t) /\
      JudgeOut.price_q1 out = Demo.round2 (price_q1 t) /\
      JudgeOut.price_q3 out = Demo.round2 (price_q3 t) /\
      JudgeOut.price_range out =
        [Demo.round2 (price_min t); Demo.round2 (price_max t)] /\
      JudgeOut.counts (JudgeOut.hist out) = hist_counts t /\
      JudgeOut.edges (JudgeOut.hist out) = hist_edges t.
Proof.
  eexists. split; [vm_compute; reflexivity|]. split; [reflexivity|].
  apply (judge_response_rounding
           Demo.feature_columns Demo.city_categories
           (Demo.stub_predict 1000.125) Demo.round2 Demo.np_min Demo.np_max
           Demo.np_mean Demo.np_median Demo.np_percentile Demo.np_histogram
           (Demo.judge_request 3000)).
  vm_compute. reflexivity.
Defined.

(** With prices that are multiples of 1000.125 the first histogram edge is
    the minimum 1000.125 itself, while the price range reports 1000.12. *)
Lemma histogram_edges_not_rounded :
  exists out, Demo.judge 1000.125 (Demo.judge_request 3000) = Ok out /\
    nth 0 (JudgeOut.edges (JudgeOut.hist out)) 0%float = 1000.125%float /\
    nth 0 (JudgeOut.price_range out) 0%float = 1000.12%float /\
    ~ all_rounded_as_specified Demo.round2 out.
Proof.
  eexists. split; [vm_compute; reflexivity|].
  split; [reflexivity|]. split; [reflexivity|].
  unfold all_rounded_as_specified. intros H.
  rewrite Forall_forall in H.
  specialize (H 1000.125%float ltac:(vm_compute; tauto)).
  vm_compute in H. float_neq H.
Qed.

(** A [float64] model that estimates 3000.375, through both handlers, and
    a [float32] model that estimates 340560.46875 for a listing with
    parking: [predict] multiplies and rounds in [float32] and returns
    344306.625, where binary64 arithmetic gives 344306.63. *)
Lemma predicted_price_witness :
  (exists out,
     Demo.predict 1000.125 Demo.stub_explainer (Demo.request_of "نابلس" (Some 1%Z))
     = Ok out /\
     PredictOut.predicted_price out = Demo.round2 (3000.375 * 1.011)%float) /\
  (exists out,
     Demo.judge 1000.125 (Demo.judge_request 3000) = Ok out /\
     JudgeOut.predicted_price out = Demo.round2 3000.375%float) /\
  (exists out,
     Demo.predict32 113520.15625 Demo.stub_explainer
       (Demo.request_of "نابلس" (Some 1%Z)) = Ok out /\
     PredictOut.predicted_price out = 344306.625%float /\
     Demo.round2 (340560.46875 * 1.011)%float = 344306.63%float).
Proof.
  destruct (@predicted_price_surcharge
              Demo.feature_columns Demo.city_categories
              (Demo.stub_predict 1000.125) Demo.round2 Demo.np_min Demo.np_max
              Demo.np_mean Demo.np_median Demo.np_percentile Demo.np_histogram
              float (float_Scalar Demo.round2) float (float_Number Demo.round2)
              (Demo.stub_predict 1000.125) Demo.stub_explainer (fun x => x))
    as [Hpredict Hjudge].
  destruct (@predicted_price_surcharge
              Demo.feature_columns Demo.city_categories
              (Demo.stub_predict 113520.15625) Demo.round2 Demo.np_min
              Demo.np_max Demo.np_mean Demo.np_median Demo.np_percentile
              Demo.np_histogram
              float Demo.float32_Scalar float Demo.float32_Number
              (Demo.stub_predict 113520.15625) Demo.stub_explainer
              (fun x => x))
    as [Hpredict32 _].
  split; [|split].
  - eexists. split; [vm_compute; reflexivity|].
    match goal with
    | |- PredictOut.predicted_price ?o = _ =>
        destruct (Hpredict (Demo.request_of "نابلس" (Some 1%Z)) o
                    ltac:(vm_compute; reflexivity))
          as (y & (ys & Hys & Hy) & Hon & _)
    end.
    vm_compute in Hys. injection Hys as <-. injection Hy as <-.
    exact (Hon eq_refl).
  - eexists. split; [vm_compute; reflexivity|].
    match goal with
    | |- JudgeOut.predicted_price ?o = _ =>
        destruct (Hjudge (Demo.judge_request 3000) o
                    ltac:(vm_compute; reflexivity))
          as (y & (ys & Hys & Hy) & _ & Hoff)
    end.
    vm_compute in Hys. injection Hys as <-. injection Hy as <-.
    exact (Hoff (or_introl eq_refl)).
  - eexists. split; [vm_compute; reflexivity|].
    split; [|vm_compute; reflexivity].
    match goal with
    | |- PredictOut.predicted_price ?o = _ =>
        destruct (Hpredict32 (Demo.request_of "نابلس" (Some 1%Z)) o
                    ltac:(vm_compute; reflexivity))
          as (y & (ys & Hys & Hy) & Hon & _)
    end.
    vm_compute in Hys. injection Hys as <-. injection Hy as <-.
    rewrite (Hon eq_refl). vm_compute. reflexivity.
Defined.

(** The model estimates 3000.375 and the request has no parking; the
    returned price is 3000.38. *)
Lemma predicted_price_is_rounded :
  exists out y,
    Demo.predict 1000.125 Demo.stub_explainer Demo.request = Ok out /\
    model_output Demo.feature_columns Demo.city_categories
      (Demo.stub_predict 1000.125) Demo.request y /\
    y = 3000.375%float /\
    PredictOut.predicted_price out = 3000.38%float /\
    ~ surcharge_as_specified Demo.request y (PredictOut.predicted_price out).
Proof.
  eexists. exists 3000.375%float.
  split; [vm_compute; reflexivity|].
  split; [eexists; split; vm_compute; reflexivity|].
  split; [reflexivity|]. split; [reflexivity|].
  unfold surcharge_as_specified. intros H. vm_compute in H. float_neq H.
Qed.

Lemma judge_histogram_witness :
  exists out, Demo.judge 1000 (Demo.judge_request 3000) = Ok out /\
    List.length (JudgeOut.counts (JudgeOut.hist out)) = 10%nat /\
    List.length (JudgeOut.edges (JudgeOut.hist out)) = 11%nat /\
    sumZ (JudgeOut.counts (JudgeOut.hist out)) = 4320%Z.
Proof.
  eexists. split; [vm_compute; reflexivity|].
  apply (judge_histogram_conserves_samples
           Demo.feature_columns Demo.city_categories
           (Demo.stub_predict 1000) Demo.round2 Demo.np_min Demo.np_max
           Demo.np_mean Demo.np_median Demo.np_percentile Demo.np_histogram
           (stub_predict_rows 1000)
           (fun xs counts edges => demo_histogram_contract xs 10 counts edges)
           (Demo.judge_request 3000)).
  vm_compute. reflexivity.
Defined.

(** ** The order of binary64 values *)








(** ** The stable descending sort *)

Section SortedDesc.

Context {A : Type} (key_lt : A -> A -> bool).

Lemma insert_desc_perm (x : A) (l : list A) :
  Permutation (insert_desc key_lt x l) (x :: l).
Proof.
  induction l as [|y l IH]; simpl; [reflexivity|].
  destruct (key_lt x y); [|reflexivity].
  rewrite IH. apply perm_swap.
Qed.

Lemma sorted_desc_perm (l : list A) : Permutation (sorted_desc key_lt l) l.
Proof.
  induction l as [|x l IH]; simpl; [reflexivity|].
  unfold sorted_desc in *; simpl.
  rewrite insert_desc_perm. now constructor.
Qed.


Hypothesis key_lt_asym : forall a b, key_lt a b = true -> key_lt b a = false.



End SortedDesc.



Lemma incl_firstn {A : Type} (n : nat) (l : list A) : incl (firstn n l) l.
Proof.
  intros x Hx. rewrite <- (firstn_skipn n l). apply in_app_iff. now left.
Qed.


Lemma NoDup_firstn {A : Type} (n : nat) (l : list A) :
  NoDup l -> NoDup (firstn n l).
Proof.
  intros Hnd. rewrite <- (firstn_skipn n l) in Hnd.
  now apply NoDup_app_remove_r in Hnd.
Qed.

(** Items none of which is smaller than another are left as they are. *)
Lemma sorted_desc_ties {A : Type} (key_lt : A -> A -> bool) (l : list A) :
  (forall a b, In a l -> In b l -> key_lt a b = false) ->
  sorted_desc key_lt l = l.
Proof.
  induction l as [|x l IH]; intros Hties; [reflexivity|].
  change (sorted_desc key_lt (x :: l))
    with (insert_desc key_lt x (sorted_desc key_lt l)).
  rewrite IH by (intros a b Ha Hb; apply Hties; now right).
  destruct l as [|y l]; simpl; [reflexivity|].
  rewrite (Hties x y); [reflexivity|now left|right; now left].
Qed.

(** ** The attribution aggregator *)

Section AggregatorProperties.

Variable feature_columns : list string.
Context {F : Type} `{Number F}.

Local Notation FEATURE_GROUPS' := (FEATURE_GROUPS feature_columns).
Local Notation city_features := (filter (String.prefix CITY_PREFIX) feature_columns).

(** [sum(feature_shap.get(f, 0) for f in features)]. *)
Local Notation group_sum feature_shap features :=
  (py_sum (map (fun f => dict_get_default f nzero feature_shap) features)).

(** The loop over the six groups, unrolled. *)
Lemma group_sums_unroll (feature_shap : dict F) (input_df : DataFrame) :
  group_sums feature_shap input_df FEATURE_GROUPS' [] =
  let* active := active_cities input_df city_features in
  Ok [ ("المساحة و الغرف", group_sum feature_shap ["مساحة البناء"; "عدد الغرف"]);
       ("الحمامات", group_sum feature_shap ["عدد الحمامات"]);
       ("حالة العقار",
         group_sum feature_shap ["مفروشة"; "عمر البناء"; "العقار مرهون"]);
       ("الدفع", group_sum feature_shap ["طريقة الدفع"]);
       ("الطابق", group_sum feature_shap ["الطابق"]);
       ("المدينة", group_sum feature_shap active) ].
Proof.
  unfold FEATURE_GROUPS. cbn -[py_sum map dict_get_default filter active_cities].
  destruct (active_cities input_df city_features) as [active|];
    reflexivity.
Qed.

Lemma group_sums_FEATURE_GROUPS (feature_shap : dict F) (input_df : DataFrame)
  (grouped : dict F) :
  group_sums feature_shap input_df FEATURE_GROUPS' [] = Ok grouped ->
  exists active,
    active_cities input_df city_features = Ok active /\
    grouped =
    [ ("المساحة و الغرف", group_sum feature_shap ["مساحة البناء"; "عدد الغرف"]);
      ("الحمامات", group_sum feature_shap ["عدد الحمامات"]);
      ("حالة العقار",
        group_sum feature_shap ["مفروشة"; "عمر البناء"; "العقار مرهون"]);
      ("الدفع", group_sum feature_shap ["طريقة الدفع"]);
      ("الطابق", group_sum feature_shap ["الطابق"]);
      ("المدينة", group_sum feature_shap active) ].
Proof.
  rewrite group_sums_unroll.
  destruct (active_cities input_df city_features) as [active|];
    [|discriminate].
  intros H0. exists active. split; [reflexivity|].
  cbn [bind] in H0. now injection H0 as <-.
Qed.

Lemma group_sums_keys (feature_shap : dict F) (input_df : DataFrame)
  (grouped : dict F) :
  group_sums feature_shap input_df FEATURE_GROUPS' [] = Ok grouped ->
  map fst grouped = group_names.
Proof.
  intros Hg. apply group_sums_FEATURE_GROUPS in Hg as (active & _ & ->).
  reflexivity.
Qed.

Lemma group_names_distinct : NoDup group_names.
Proof.
  apply (distinctb_NoDup String.eqb); [exact String.eqb_refl|].
  vm_compute. reflexivity.
Qed.

Lemma normalize_keys (grouped : dict F) :
  map fst grouped = group_names ->
  normalize grouped =
  map (fun kv =>
         (fst kv,
          nround2 (nmul (ndiv (snd kv)
                           (py_or (py_sum (map (fun kv => nabs (snd kv)) grouped))
                                  n1e_9))
                        n100)))
      grouped /\
  map fst (normalize grouped) = group_names.
Proof.
  intros Hk. unfold normalize.
  set (pct := fun kv : string * F => (fst kv, _)).
  assert (Hkeys : map fst (map pct grouped) = group_names).
  { rewrite map_map, <- Hk. apply map_ext. reflexivity. }
  rewrite dict_of_items_distinct
    by (rewrite Hkeys; exact group_names_distinct).
  now split.
Qed.

(** What [group_shap_values] returns: the first four entries of the stably
    sorted percentages. *)
Lemma group_shap_values_Ok (shap_values : list F) (input_df : DataFrame)
  (out : dict F) :
  group_shap_values feature_columns shap_values input_df = Ok out ->
  exists grouped,
    group_sums (dict_of_items (combine (columns input_df) shap_values))
      input_df FEATURE_GROUPS' [] = Ok grouped /\
    map fst (normalize grouped) = group_names /\
    out = firstn 4 (sorted_desc abs_key_lt (normalize grouped)).
Proof.
  unfold group_shap_values. intros Hout. bind_inv Hout.
  injection Hout as <-. exists x. split; [reflexivity|].
  pose proof (group_sums_keys _ _ _ E) as Hk.
  destruct (normalize_keys x Hk) as [_ Hnk].
  split; [exact Hnk|].
  assert (Hnd : NoDup (map fst (sorted_desc abs_key_lt (normalize x)))).
  { eapply Permutation_NoDup.
    - apply Permutation_map, Permutation_sym, sorted_desc_perm.
    - rewrite Hnk. exact group_names_distinct. }
  rewrite (dict_of_items_distinct (sorted_desc _ _) Hnd).
  apply dict_of_items_distinct. rewrite <- firstn_map. now apply NoDup_firstn.
Qed.

(** On an encoded payload every city column is found once, so the
    aggregator returns a mapping. *)
Lemma filter_key_NoDup {V : Type} (g : string -> V) (f : string)
  (l : list string) :
  NoDup l -> In f l ->
  filter (fun kv : string * V => String.eqb (fst kv) f)
    (map (fun c => (c, g c)) l) = [(f, g f)].
Proof.
  induction 1 as [|c l Hc Hnd IH]; intros Hin; [destruct Hin|].
  cbn [map filter fst]. destruct (String.eqb_spec c f) as [->|Hne].
  - f_equal. clear IH Hin Hnd. induction l as [|d l IH]; [reflexivity|].
    cbn [map filter fst]. destruct (String.eqb_spec d f) as [->|_].
    + exfalso. apply Hc. now left.
    + apply IH. intros Hf. apply Hc. now right.
  - destruct Hin as [->|Hin]; [contradiction|]. now apply IH.
Qed.

Lemma iloc0_build (city_categories : list string) (p : PredictIn) (f : string) :
  NoDup feature_columns -> In f feature_columns ->
  iloc0 (build_model_input feature_columns city_categories p) f =
  Ok (dict_get_default f (VInt 0) (row city_categories p)).
Proof.
  intros Hnd Hin. rewrite build_model_input_unfold. unfold iloc0.
  cbn [rows columns]. rewrite combine_map_self.
  now rewrite (filter_key_NoDup _ f _ Hnd Hin).
Qed.



End AggregatorProperties.



(** ** The ranking of the aggregator *)

Section AggregatorRanking.

Variable feature_columns : list string.
Variable city_categories : list string.
Context {F : Type} {number_F : Number F}.


End AggregatorRanking.



(** * Further properties of the encoder and of the market simulation *)

(** X1: [map_building_age] is total on the integers with values in 0..5,
    and each bucket is the image of exactly one range of ages: 0 of age 0,
    1 of age 1, 2 of 2..5, 3 of 6..9, 4 of 10..19, and 5 of every age from
    20 on and also of every negative age, which the final [else] catches. *)
Theorem map_building_age_fibers (age : Z) :
  (0 <= map_building_age age <= 5)%Z /\
  (map_building_age age = 0 <-> age = 0)%Z /\
  (map_building_age age = 1 <-> age = 1)%Z /\
  (map_building_age age = 2 <-> 2 <= age <= 5)%Z /\
  (map_building_age age = 3 <-> 6 <= age <= 9)%Z /\
  (map_building_age age = 4 <-> 10 <= age <= 19)%Z /\
  (map_building_age age = 5 <-> age < 0 \/ 20 <= age)%Z.
Proof.
  unfold map_building_age.
  destruct (Z.eqb_spec age 0) as [->|H0]; [cbn; lia|].
  destruct (Z.eqb_spec age 1) as [->|H1]; [cbn; lia|].
  destruct (Z.leb_spec 2 age), (Z.leb_spec age 5); cbn [andb]; try lia;
  destruct (Z.leb_spec 6 age), (Z.leb_spec age 9); cbn [andb]; try lia;
  destruct (Z.leb_spec 10 age), (Z.leb_spec age 19); cbn [andb]; lia.
Qed.

(** ** The keys of the row dictionary *)

Lemma dict_get_not_None {V : Type} (k : string) (d : dict V) :
  dict_get k d <> None <-> In k (map fst d).
Proof.
  destruct (dict_get k d) as [v|] eqn:E.
  - split; [intros _|discriminate].
    apply dict_get_In in E. now apply (in_map fst) in E.
  - apply dict_get_None in E. split; [congruence|contradiction].
Qed.

Lemma training_name_not_city (c : string) :
  In c (map snd TRAIN_KEYS) -> is_city_col c = false.
Proof.
  cbn. intros H.
  repeat (destruct H as [<-|H]; [reflexivity|]). destruct H.
Qed.

Lemma for_grid_ext {A : Type} (body1 body2 : Z -> Z -> Z -> Z -> Z -> Z -> Z -> A) :
  (forall a b c d e f g, body1 a b c d e f g = body2 a b c d e f g) ->
  for_grid body1 = for_grid body2.
Proof.
  intros Hext. unfold for_grid.
  repeat (apply flat_map_ext; intros ?). apply map_ext. intros ?. apply Hext.
Qed.

Section EncoderCells.

Variable feature_columns : list string.
Variable city_categories : list string.

Local Notation build := (build_model_input feature_columns city_categories).
Local Notation row' := (row city_categories).
Local Notation zero_city_cols' := (zero_city_cols city_categories).
Local Notation city_cols' := (city_cols city_categories).
Local Notation active_col' := (active_col city_categories).
Local Notation variants' := (variants feature_columns city_categories).
Local Notation city_labels := (map (String.append CITY_PREFIX) city_categories).

Lemma active_col_in_labels (p : PredictIn) (a : string) :
  active_col' p = Some a -> In a city_labels.
Proof.
  unfold active_col.
  destruct (existsb (String.eqb (المدينة p)) city_categories) eqn:E1.
  - intros [= <-]. apply existsb_eqb_In in E1.
    exact (in_map (String.append CITY_PREFIX) _ _ E1).
  - destruct (existsb (String.eqb "أخرى") city_categories) eqn:E2; [|discriminate].
    intros [= <-]. apply existsb_eqb_In in E2.
    exact (in_map (String.append CITY_PREFIX) _ _ E2).
Qed.

Lemma city_cols_keys (p : PredictIn) (c : string) :
  In c (map fst (city_cols' p)) <-> In c city_labels.
Proof.
  rewrite <- dict_get_not_None, dict_get_city_cols, dict_get_zero_city_cols.
  destruct (existsb (String.eqb c) city_labels) eqn:E.
  - apply existsb_eqb_In in E. split; [intros _; exact E|intros _].
    destruct (active_col' p) as [a|]; [destruct (String.eqb a c)|]; discriminate.
  - assert (Hc : ~ In c city_labels)
      by (intros Hin; apply existsb_eqb_In in Hin; congruence).
    split; [|contradiction]. intros Hget. exfalso.
    destruct (active_col' p) as [a|] eqn:Ha; [|now apply Hget].
    destruct (String.eqb_spec a c) as [->|_]; [|now apply Hget].
    apply Hc. exact (active_col_in_labels p c Ha).
Qed.

Lemma city_label_is_city (c : string) : In c city_labels -> is_city_col c = true.
Proof.
  intros Hin. apply in_map_iff in Hin as [k [<- _]].
  exact (prefix_append CITY_PREFIX k).
Qed.

(** Looking a label up in [{**base, **city_cols}]. *)
Lemma dict_get_row (p : PredictIn) (c : string) :
  dict_get c (row' p) =
  match dict_get c (city_cols' p) with
  | Some v => Some v
  | None => dict_get c (base_row p)
  end.
Proof.
  unfold row. now rewrite dict_get_update, (dict_get_rev _ _ (NoDup_city_cols _ p)).
Qed.

Lemma base_row_items (p : PredictIn) :
  base_row p =
  [ ("عدد الغرف", VInt (عدد_الغرف p));
    ("عدد الحمامات", VInt (عدد_الحمامات p));
    ("مفروشة", VInt (مفروشة p));
    ("مساحة البناء", VFloat (مساحة_البناء p));
    ("الطابق", VInt (الطابق p));
    ("عمر البناء", VInt (map_building_age (عمر_البناء p)));
    ("العقار مرهون", VInt (العقار_مرهون p));
    ("طريقة الدفع", VInt (طريقة_الدفع p)) ].
Proof. reflexivity. Qed.

Lemma base_row_distinct (p : PredictIn) : NoDup (map fst (base_row p)).
Proof.
  rewrite base_row_keys.
  apply (distinctb_NoDup String.eqb); [exact String.eqb_refl|].
  vm_compute. reflexivity.
Qed.

(** A schema column named as a training column holds the entry of [base]. *)
Lemma listing_cell (p : PredictIn) (c : string) (v : value) :
  In (c, v) (base_row p) -> In c feature_columns ->
  dict_get c (encoded (build p)) = Some v.
Proof.
  intros Hbase Hin.
  rewrite encoded_build, dict_get_map_self.
  apply existsb_eqb_In in Hin. rewrite Hin. f_equal.
  unfold dict_get_default. rewrite dict_get_row.
  assert (Hcity : dict_get c (city_cols' p) = None).
  { apply dict_get_None. intros Hk. apply city_cols_keys in Hk.
    apply city_label_is_city in Hk.
    apply (in_map fst) in Hbase. rewrite base_row_keys in Hbase.
    rewrite (training_name_not_city c Hbase) in Hk. discriminate Hk. }
  rewrite Hcity.
  apply (dict_get_Some_iff c v (base_row p) (base_row_distinct p)) in Hbase.
  now rewrite Hbase.
Qed.

(** X2: the eight listing attributes reach the model under their training
    column names, the age as its bucket: whatever the city and the category
    set, every entry of the [base] dictionary whose name is a schema column
    is the cell of that column; the city indicators never overwrite one. *)
Theorem build_model_input_keeps_listing_cells (p : PredictIn) :
  base_row p =
    [ ("عدد الغرف", VInt (عدد_الغرف p));
      ("عدد الحمامات", VInt (عدد_الحمامات p));
      ("مفروشة", VInt (مفروشة p));
      ("مساحة البناء", VFloat (مساحة_البناء p));
      ("الطابق", VInt (الطابق p));
      ("عمر البناء", VInt (map_building_age (عمر_البناء p)));
      ("العقار مرهون", VInt (العقار_مرهون p));
      ("طريقة الدفع", VInt (طريقة_الدفع p)) ] /\
  (forall c v, In (c, v) (base_row p) -> In c feature_columns ->
     dict_get c (encoded (build p)) = Some v).
Proof.
  split; [apply base_row_items|]. intros c v. apply listing_cell.
Qed.

Lemma row_keys (p : PredictIn) (c : string) :
  In c (map fst (row' p)) <-> In c (map snd TRAIN_KEYS) \/ In c city_labels.
Proof.
  rewrite <- dict_get_not_None, dict_get_row.
  rewrite <- (city_cols_keys p c), <- !dict_get_not_None.
  change (map snd TRAIN_KEYS) with (map fst (base_row p)).
  rewrite <- dict_get_not_None.
  destruct (dict_get c (city_cols' p)); [|tauto].
  split; [intros _; right|]; discriminate.
Qed.

(** X3: the labels the encoder produces do not depend on the request: they
    are the eight training names and one indicator per city category.  A
    schema column with any other label, such as a parking or an elevator
    column, is 0 in every encoded vector. *)
Theorem build_model_input_unknown_columns_zero (p : PredictIn) :
  (forall c, In c (map fst (row' p)) <->
             In c (map snd TRAIN_KEYS) \/ In c city_labels) /\
  (forall c, In c feature_columns ->
             ~ In c (map snd TRAIN_KEYS) -> ~ In c city_labels ->
             dict_get c (encoded (build p)) = Some (VInt 0)).
Proof.
  split; [apply row_keys|].
  intros c Hin Hbase Hcity.
  rewrite encoded_build, dict_get_map_self.
  apply existsb_eqb_In in Hin. rewrite Hin. f_equal.
  unfold dict_get_default.
  assert (Hnone : dict_get c (row' p) = None).
  { apply dict_get_None. rewrite row_keys. tauto. }
  now rewrite Hnone.
Qed.

(** The encoder reads the payload through the eight listing attributes, the
    age through its bucket, and the city. *)
Lemma build_model_input_ext (p1 p2 : PredictIn) :
  عدد_الغرف p1 = عدد_الغرف p2 ->
  عدد_الحمامات p1 = عدد_الحمامات p2 ->
  مفروشة p1 = مفروشة p2 ->
  مساحة_البناء p1 = مساحة_البناء p2 ->
  الطابق p1 = الطابق p2 ->
  map_building_age (عمر_البناء p1) = map_building_age (عمر_البناء p2) ->
  العقار_مرهون p1 = العقار_مرهون p2 ->
  طريقة_الدفع p1 = طريقة_الدفع p2 ->
  المدينة p1 = المدينة p2 ->
  build p1 = build p2.
Proof.
  intros H1 H2 H3 H4 H5 H6 H7 H8 H9.
  unfold build_model_input, row, city_cols, base_row.
  now rewrite H1, H2, H3, H4, H5, H6, H7, H8, H9.
Qed.

End EncoderCells.

(** ** The batch of the market simulation *)

Section MarketProperties.

Variable feature_columns : list string.
Variable city_categories : list string.
Variable final_model_predict : DataFrame -> result (list float).
Variable py_round2 : float -> float.
Variable np_min np_max np_mean np_median : list float -> result float.
Variable np_percentile : list float -> Z -> result float.
Variable np_histogram : list float -> nat -> result (list Z * list float).

Local Notation build := (build_model_input feature_columns city_categories).
Local Notation variants' := (variants feature_columns city_categories).
Local Notation simulated_prices' :=
  (simulated_prices feature_columns city_categories final_model_predict).
Local Notation estimates' :=
  (estimates feature_columns city_categories final_model_predict).
Local Notation judge_price' :=
  (judge_price feature_columns city_categories final_model_predict py_round2
     np_min np_max np_mean np_median np_percentile np_histogram).
Local Notation judge_binds' :=
  (judge_binds feature_columns city_categories final_model_predict
     np_min np_max np_mean np_median np_percentile np_histogram).

(** The row of cells of an encoded payload. *)
Local Notation cells p :=
  (map (fun c => dict_get_default c (VInt 0) (row city_categories p))
       feature_columns).

Lemma variants_grid_payloads (payload : JudgeIn) :
  variants' payload = map (fun v : JudgeIn => build v) (grid_payloads payload).
Proof. exact (for_grid_map (fun v : JudgeIn => build v) (variant payload)). Qed.

Lemma flat_map_rows_build (l : list JudgeIn) :
  flat_map rows (map (fun v : JudgeIn => build v) l) =
  map (fun v : JudgeIn => cells v) l.
Proof.
  induction l as [|v l IH]; [reflexivity|].
  cbn [map flat_map]. rewrite IH, build_model_input_unfold. reflexivity.
Qed.

Lemma pd_concat_variants (payload : JudgeIn) :
  pd_concat (variants' payload) =
  Ok {| columns := feature_columns;
        rows := map (fun v : JudgeIn => cells v) (grid_payloads payload) |}.
Proof.
  rewrite variants_grid_payloads, <- flat_map_rows_build.
  pose proof (for_grid_length (variant payload)) as Hlen.
  fold (grid_payloads payload) in Hlen.
  destruct (grid_payloads payload) as [|v l]; [discriminate Hlen|].
  cbn [map pd_concat]. now rewrite build_model_input_unfold.
Qed.

(** X4: the frame [judge_price] hands to the model: [pd.concat] never
    raises on the variants, and the batch carries the schema's columns and
    4320 rows, one per grid point in loop order, each row as wide as the
    schema. *)
Theorem market_batch_shape (payload : JudgeIn) :
  exists all_df,
    pd_concat (variants' payload) = Ok all_df /\
    simulated_prices' payload = final_model_predict all_df /\
    columns all_df = feature_columns /\
    rows all_df = map (fun v : JudgeIn => cells v) (grid_payloads payload) /\
    List.length (rows all_df) = 4320%nat /\
    Forall (fun r => List.length r = List.length feature_columns) (rows all_df).
Proof.
  eexists. split; [apply pd_concat_variants|].
  split; [unfold simulated_prices; now rewrite pd_concat_variants|].
  cbn [columns rows]. split; [reflexivity|]. split; [reflexivity|].
  split.
  - rewrite length_map. unfold grid_payloads. apply for_grid_length.
  - apply Forall_forall. intros r Hr. apply in_map_iff in Hr as [v [<- _]].
    apply length_map.
Qed.

Lemma variants_ext (j1 j2 : JudgeIn) :
  المدينة j1 = المدينة j2 -> مساحة_البناء j1 = مساحة_البناء j2 ->
  variants' j1 = variants' j2.
Proof.
  intros Hcity Harea. unfold variants. apply for_grid_ext. intros a b c d e f g.
  apply build_model_input_ext; try reflexivity; assumption.
Qed.

(** X5: the simulated market is a function of the request's city and
    building area alone: two requests that agree on these two fields,
    whatever their other attributes, parking flags and asking prices, give
    the same batch and the same simulated prices, and responses with the
    same market mean, median, quartiles, price range and histogram. *)
Theorem market_depends_on_city_and_area (j1 j2 : JudgeIn) :
  المدينة j1 = المدينة j2 -> مساحة_البناء j1 = مساحة_البناء j2 ->
  variants' j1 = variants' j2 /\
  simulated_prices' j1 = simulated_prices' j2 /\
  forall o1 o2, judge_price' j1 = Ok o1 -> judge_price' j2 = Ok o2 ->
    JudgeOut.market_mean o1 = JudgeOut.market_mean o2 /\
    JudgeOut.market_median o1 = JudgeOut.market_median o2 /\
    JudgeOut.price_q1 o1 = JudgeOut.price_q1 o2 /\
    JudgeOut.price_q3 o1 = JudgeOut.price_q3 o2 /\
    JudgeOut.price_range o1 = JudgeOut.price_range o2 /\
    JudgeOut.hist o1 = JudgeOut.hist o2.
Proof.
  intros Hcity Harea.
  pose proof (variants_ext j1 j2 Hcity Harea) as Hv.
  assert (Hs : simulated_prices' j1 = simulated_prices' j2)
    by (unfold simulated_prices; now rewrite Hv).
  split; [exact Hv|]. split; [exact Hs|].
  intros o1 o2 H1 H2.
  apply judge_price_Ok in H1 as [t1 [B1 ->]].
  apply judge_price_Ok in H2 as [t2 [B2 ->]].
  destruct B1 as (S1 & Mn1 & Mx1 & Me1 & Md1 & Q11 & Q31 & Hi1 & _).
  destruct B2 as (S2 & Mn2 & Mx2 & Me2 & Md2 & Q12 & Q32 & Hi2 & _).
  rewrite Hs, S2 in S1. injection S1 as S1. rewrite <- S1 in *.
  rewrite Mn2 in Mn1. injection Mn1 as Mn1.
  rewrite Mx2 in Mx1. injection Mx1 as Mx1.
  rewrite Me2 in Me1. injection Me1 as Me1.
  rewrite Md2 in Md1. injection Md1 as Md1.
  rewrite Q12 in Q11. injection Q11 as Q11.
  rewrite Q32 in Q31. injection Q31 as Q31.
  rewrite Hi2 in Hi1. apply Ok_pair_inv in Hi1 as [Hc He].
  unfold judge_response; cbn.
  rewrite Mn1, Mx1, Me1, Md1, Q11, Q31, Hc, He. repeat split; reflexivity.
Qed.

(** A listing on the grid is encoded like one of the grid's variants. *)
Lemma build_on_grid (j : JudgeIn) :
  on_grid j -> In (build j) (variants' j).
Proof.
  intros (H1 & H2 & H3 & H4 & H5 & H6 & H7).
  apply in_map_iff in H3 as [age [Hage H3]].
  unfold variants. apply in_for_grid.
  exists (عدد_الغرف j), (عدد_الحمامات j), age, (الطابق j), (مفروشة j),
         (طريقة_الدفع j), (العقار_مرهون j).
  repeat (split; [assumption|]).
  apply build_model_input_ext; try reflexivity. symmetry. exact Hage.
Qed.

Lemma age_cell (p : PredictIn) :
  In "عمر البناء" feature_columns ->
  dict_get "عمر البناء" (encoded (build p)) =
  Some (VInt (map_building_age (عمر_البناء p))).
Proof.
  intros Hin. apply listing_cell; [|exact Hin].
  rewrite base_row_items. do 5 right. now left.
Qed.

(** X6: [judge_price] simulates the request's own configuration
    whenever the request lies on the grid up to age bucketing: a listing whose
    rooms, baths, floor, furnished, payment and mortgage values are grid
    values and whose age bucket is the bucket of a grid age is encoded like
    one of the 4320 variants; a listing aged one year never is, when the
    schema has the age column, because no grid age falls in bucket 1. *)
Theorem request_on_grid_is_simulated (j : JudgeIn) :
  (on_grid j -> In (build j) (variants' j)) /\
  (In "عمر البناء" feature_columns -> عمر_البناء j = 1%Z ->
   ~ In (build j) (variants' j)).
Proof.
  split; [apply build_on_grid|].
  intros Hcol Hage Hin. unfold variants in Hin.
  apply in_for_grid in Hin
    as (a & b & age & d & e & f & g & _ & _ & Hgrid & _ & _ & _ & _ & Heq).
  apply (f_equal (fun df => dict_get "عمر البناء" (encoded df))) in Heq.
  rewrite !(age_cell _ Hcol), Hage in Heq. cbn [عمر_البناء variant attrs] in Heq.
  cbn in Hgrid.
  repeat (destruct Hgrid as [<-|Hgrid]; [discriminate Heq|]). destruct Hgrid.
Qed.

(** X7: for a model that prices a batch row by row, the point estimate of
    a listing on the grid is one of the simulated prices, so the market
    summary is computed from a sample that contains it. *)
Theorem estimate_among_simulated_prices (price : list value -> float)
  (j : JudgeIn) :
  (forall rs, final_model_predict {| columns := feature_columns; rows := rs |}
              = Ok (map price rs)) ->
  on_grid j ->
  exists prices y,
    simulated_prices' j = Ok prices /\ estimates' j y /\ In y prices /\
    List.length prices = 4320%nat.
Proof.
  intros Hmodel Hgrid.
  exists (map price (map (fun v : JudgeIn => cells v) (grid_payloads j))),
         (price (cells j)).
  split; [unfold simulated_prices; rewrite pd_concat_variants; apply Hmodel|].
  split.
  - exists [price (cells j)]. rewrite build_model_input_unfold.
    split; [apply Hmodel|reflexivity].
  - split; [|rewrite !length_map; unfold grid_payloads; apply for_grid_length].
    apply in_map. apply build_on_grid in Hgrid.
    rewrite variants_grid_payloads in Hgrid.
    apply in_map_iff in Hgrid as [v [Hv Hin]].
    rewrite !build_model_input_unfold in Hv. injection Hv as Hv.
    apply in_map_iff. exists v. split; [exact Hv|exact Hin].
Qed.

End MarketProperties.

(** A second request in the same city with the same area: one room, one
    bath, new, ground floor, unfurnished, offered at 500. *)
Lemma market_depends_on_city_and_area_witness :
  let j1 := Demo.judge_request 3000 in
  let j2 := {| attrs := variant (Demo.judge_request 3000) 1 1 0 0 0 0 0;
               listed_price := 500 |} in
  variants Demo.feature_columns Demo.city_categories j1 =
  variants Demo.feature_columns Demo.city_categories j2 /\
  simulated_prices Demo.feature_columns Demo.city_categories
    (Demo.stub_predict 1000) j1 =
  simulated_prices Demo.feature_columns Demo.city_categories
    (Demo.stub_predict 1000) j2 /\
  forall o1 o2, Demo.judge 1000 j1 = Ok o1 -> Demo.judge 1000 j2 = Ok o2 ->
    JudgeOut.market_mean o1 = JudgeOut.market_mean o2 /\
    JudgeOut.market_median o1 = JudgeOut.market_median o2 /\
    JudgeOut.price_q1 o1 = JudgeOut.price_q1 o2 /\
    JudgeOut.price_q3 o1 = JudgeOut.price_q3 o2 /\
    JudgeOut.price_range o1 = JudgeOut.price_range o2 /\
    JudgeOut.hist o1 = JudgeOut.hist o2.
Proof.
  exact (market_depends_on_city_and_area Demo.feature_columns
           Demo.city_categories (Demo.stub_predict 1000) Demo.round2
           Demo.np_min Demo.np_max Demo.np_mean Demo.np_median
           Demo.np_percentile Demo.np_histogram
           (Demo.judge_request 3000)
           {| attrs := variant (Demo.judge_request 3000) 1 1 0 0 0 0 0;
              listed_price := 500 |}
           eq_refl eq_refl).
Defined.

(** The example request, three rooms and aged 7, lies on the grid; the stub
    model prices row by row. *)
Lemma estimate_among_simulated_prices_witness :
  on_grid (Demo.judge_request 3000) /\
  exists prices y,
    simulated_prices Demo.feature_columns Demo.city_categories
      (Demo.stub_predict 1000) (Demo.judge_request 3000) = Ok prices /\
    estimates Demo.feature_columns Demo.city_categories
      (Demo.stub_predict 1000) (Demo.judge_request 3000) y /\
    In y prices /\ List.length prices = 4320%nat.
Proof.
  assert (Hgrid : on_grid (Demo.judge_request 3000)).
  { unfold on_grid; vm_compute. repeat split; auto 8. }
  split; [exact Hgrid|].
  exact (estimate_among_simulated_prices Demo.feature_columns
           Demo.city_categories (Demo.stub_predict 1000)
           (fun row =>
              match dict_get "عدد الغرف" (combine Demo.feature_columns row) with
              | Some (VInt n) => (1000 * Demo.float_of_Z n)%float
              | _ => 0%float
              end)
           (Demo.judge_request 3000) (fun rs => eq_refl) Hgrid).
Defined.

(** ** The factors of a prediction *)

Section PredictProperties.

Variable feature_columns : list string.
Variable city_categories : list string.
Context {S : Type} {scalar_S : Scalar S}.
Context {F : Type} {number_F : Number F}.
Variable model_predict : DataFrame -> result (list S).
Variable explainer_values : DataFrame -> result (list F).
Variable attribution_float : F -> float.

Local Notation build := (build_model_input feature_columns city_categories).
Local Notation model_output' :=
  (model_output feature_columns city_categories model_predict).
Local Notation predict' :=
  (predict feature_columns city_categories model_predict explainer_values
     attribution_float).

(** X8: a prediction that returns reports exactly four factors, under four
    different names out of the six group names; they are the aggregator's
    four entries in the aggregator's order, each value rounded a second
    time by the handler in the arithmetic of the explainer's scalars and
    then converted to [float]. *)
Theorem predict_reports_four_factors (payload : PredictIn)
  (out : PredictOut.t) :
  predict' payload = Ok out ->
  List.length (PredictOut.factors out) = 4%nat /\
  NoDup (map fst (PredictOut.factors out)) /\
  incl (map fst (PredictOut.factors out)) group_names /\
  exists contribs top,
    explainer_values (build payload) = Ok contribs /\
    group_shap_values feature_columns contribs (build payload) = Ok top /\
    PredictOut.factors out =
    map (fun kv => (fst kv, attribution_float (nround2 (snd kv)))) top.
Proof.
  intros H. unfold predict in H. bind_inv H. injection H as <-.
  cbn [PredictOut.factors].
  pose proof E2 as Htop.
  apply group_shap_values_Ok in Htop as (grouped & _ & Hk & Htop).
  set (sorted := sorted_desc abs_key_lt (normalize grouped)) in Htop.
  assert (Hperm : Permutation (map fst sorted) group_names).
  { rewrite <- Hk. apply Permutation_map, sorted_desc_perm. }
  assert (Hkeys : map fst (map (fun kv : string * F =>
                                  (fst kv, attribution_float (nround2 (snd kv))))
                               x2)
                  = firstn 4 (map fst sorted)).
  { rewrite map_map, Htop, firstn_map. apply map_ext. reflexivity. }
  assert (Hnd : NoDup (firstn 4 (map fst sorted))).
  { apply NoDup_firstn. eapply Permutation_NoDup.
    - apply Permutation_sym, Hperm.
    - exact group_names_distinct. }
  rewrite dict_of_items_distinct by (rewrite Hkeys; exact Hnd).
  split.
  { rewrite length_map, Htop, length_firstn, <- (length_map fst sorted),
      (Permutation_length Hperm). reflexivity. }
  rewrite Hkeys. split; [exact Hnd|]. split.
  { intros k Hin. apply (Permutation_in k Hperm).
    exact (incl_firstn 4 _ k Hin). }
  exists x1, x2. repeat split; assumption.
Qed.

(** X9: the parking flag has no part in the factors: with the flag
    replaced, a prediction fails with the same detail or returns the same
    factors, and the two returned prices come from one and the same output
    of the model, each with the surcharge its own flag asks for, applied
    and rounded in the arithmetic of the model's scalar. *)
Theorem predict_factors_ignore_parking (p : PredictIn) (flag : option Z) :
  (forall e, predict' p = Raise e <-> predict' (with_parking p flag) = Raise e) /\
  (forall o1 o2,
     predict' p = Ok o1 -> predict' (with_parking p flag) = Ok o2 ->
     PredictOut.factors o1 = PredictOut.factors o2 /\
     exists y, model_output' p y /\
       PredictOut.predicted_price o1 =
         scalar_float (scalar_round2 (scalar_surcharge p y)) /\
       PredictOut.predicted_price o2 =
         scalar_float
           (scalar_round2 (scalar_surcharge (with_parking p flag) y))).
Proof.
  unfold predict, model_output.
  change (build (with_parking p flag)) with (build p).
  destruct (model_predict (build p)) as [ys|e0]; cbn [bind];
    [|split; [reflexivity|discriminate]].
  destruct (index0 ys) as [y|e0] eqn:Ey; cbn [bind];
    [|split; [reflexivity|discriminate]].
  destruct (explainer_values (build p)) as [contribs|e0]; cbn [bind];
    [|split; [reflexivity|discriminate]].
  destruct (group_shap_values feature_columns contribs (build p))
    as [top|e0]; cbn [bind];
    [|split; [reflexivity|discriminate]].
  split; [split; discriminate|].
  intros o1 o2 [= <-] [= <-]. cbn. split; [reflexivity|].
  exists y. split; [|split; reflexivity].
  exists ys. split; [reflexivity|exact Ey].
Qed.

End PredictProperties.

(** ** What the aggregator reads *)

Section AggregatorReads.

Variable feature_columns : list string.
Context {F : Type} `{Number F}.

Local Notation city_features := (filter (String.prefix CITY_PREFIX) feature_columns).

(** [feature_shap.get(c, 0)] for the attributions [shap] of a frame. *)
Local Notation attribution input_df shap c :=
  (dict_get_default c nzero (dict_of_items (combine (columns input_df) shap))).

Lemma py_sum_map_ext (f g : string -> F) (l : list string) :
  Forall (fun c => f c = g c) l -> py_sum (map f l) = py_sum (map g l).
Proof.
  intros Hall. f_equal. apply map_ext_in. now apply Forall_forall.
Qed.

(** X10: the aggregator reads an attribution vector only under the eight
    training column names and under the city columns whose cell equals 1:
    two vectors that agree there, however they differ under inactive city
    indicators or under other schema columns, give the same result. *)
Theorem group_shap_values_reads_active_only (shap1 shap2 : list F)
  (input_df : DataFrame) :
  Forall (fun c => attribution input_df shap1 c = attribution input_df shap2 c)
         (map snd TRAIN_KEYS) ->
  (forall active, active_cities input_df city_features = Ok active ->
     Forall (fun c => attribution input_df shap1 c = attribution input_df shap2 c)
            active) ->
  group_shap_values feature_columns shap1 input_df =
  group_shap_values feature_columns shap2 input_df.
Proof.
  intros Hbase Hcity. unfold group_shap_values.
  rewrite !group_sums_unroll.
  destruct (active_cities input_df city_features) as [active|e];
    [|reflexivity].
  specialize (Hcity active eq_refl). cbn [bind]. cbv zeta.
  rewrite (py_sum_map_ext _ _ active Hcity).
  cbn [map snd TRAIN_KEYS] in Hbase.
  repeat match goal with
         | Hall : Forall _ (_ :: _) |- _ =>
             let Hhd := fresh "Hhd" in
             apply Forall_cons_iff in Hall as [Hhd Hall]
         end.
  cbn [map]. now rewrite Hhd, Hhd0, Hhd1, Hhd2, Hhd3, Hhd4, Hhd5, Hhd6.
Qed.

End AggregatorReads.

(** A prediction on the example deployment with a [float32] explainer: the
    two factors that are not zero are the [float32] values nearest to 52.88
    and 47.12, converted. *)
Lemma predict_reports_four_factors_witness :
  exists out,
    Demo.predict32 1000 Demo.float32_explainer Demo.request = Ok out /\
    PredictOut.factors out =
      [ ("الحمامات", 52.880001068115234%float);
        ("المساحة و الغرف", 47.119998931884766%float);
        ("حالة العقار", 0%float); ("الدفع", 0%float) ] /\
    List.length (PredictOut.factors out) = 4%nat /\
    NoDup (map fst (PredictOut.factors out)) /\
    incl (map fst (PredictOut.factors out)) group_names.
Proof.
  eexists. split; [vm_compute; reflexivity|]. split; [reflexivity|].
  pose proof (@predict_reports_four_factors Demo.feature_columns
                Demo.city_categories float Demo.float32_Scalar
                float Demo.float32_Number (Demo.stub_predict 1000)
                Demo.float32_explainer (fun x => x) Demo.request _ eq_refl)
    as (Hlen & Hnd & Hincl & _).
  exact (conj Hlen (conj Hnd Hincl)).
Defined.

(** A listing in Ramallah: the attributions 77 and -13 under the inactive
    indicators of Nablus and of "other" change nothing. *)
Lemma group_shap_values_reads_active_only_witness :
  let df := build_model_input Demo.feature_columns Demo.city_categories
              (Demo.request_of "رام الله" None) in
  @group_shap_values Demo.feature_columns float (float_Number Demo.round2)
    [30; 20; -10; 25; 5; -5; 0; 5; 40; 0; 0]%float df =
  @group_shap_values Demo.feature_columns float (float_Number Demo.round2)
    [30; 20; -10; 25; 5; -5; 0; 5; 40; 77; -13]%float df.
Proof.
  apply (@group_shap_values_reads_active_only Demo.feature_columns float
           (float_Number Demo.round2)).
  - vm_compute. repeat constructor.
  - intros active Hactive. vm_compute in Hactive. injection Hactive as <-.
    vm_compute. repeat constructor.
Defined.

(** ** The city group of an encoded payload *)

Section CityGroup.

Variable feature_columns : list string.
Variable city_categories : list string.
Context {F : Type} `{Number F}.

Local Notation build := (build_model_input feature_columns city_categories).
Local Notation active_col' := (active_col city_categories).
Local Notation city_features := (filter (String.prefix CITY_PREFIX) feature_columns).
Local Notation is_active p :=
  (fun f : string => match active_col' p with
                     | Some a => String.eqb a f
                     | None => false
                     end).

Lemma active_cities_build_filter (p : PredictIn) (features : list string) :
  NoDup feature_columns -> incl features feature_columns ->
  Forall (fun f => is_city_col f = true) features ->
  active_cities (build p) features = Ok (filter (is_active p) features).
Proof.
  intros Hnd. induction features as [|f fs IH]; intros Hincl Hcity;
    cbn [active_cities filter]; [reflexivity|].
  apply Forall_cons_iff in Hcity as [Hf Hfs].
  rewrite (iloc0_build _ _ _ _ Hnd (Hincl f (or_introl eq_refl))).
  rewrite IH; [|intros x Hx; apply Hincl; now right|exact Hfs].
  cbn [bind]. rewrite (city_cell _ p f Hf).
  destruct (active_col' p) as [a|]; [|reflexivity].
  destruct (String.eqb a f); reflexivity.
Qed.

Lemma active_city_features (p : PredictIn) :
  NoDup feature_columns ->
  filter (is_active p) city_features =
  match active_col' p with
  | Some a => if existsb (String.eqb a) feature_columns then [a] else []
  | None => []
  end.
Proof.
  intros Hnd. destruct (active_col' p) as [a|] eqn:Ha.
  - rewrite (filter_ext (fun f => String.eqb a f) (String.eqb a)
               (fun _ => eq_refl)).
    rewrite (filter_eqb_NoDup a _ (NoDup_filter _ Hnd)).
    assert (Hex : existsb (String.eqb a) city_features =
                  existsb (String.eqb a) feature_columns).
    { apply active_col_is_city in Ha.
      apply eq_true_iff_eq. rewrite !existsb_eqb_In, filter_In.
      unfold is_city_col in Ha. tauto. }
    now rewrite Hex.
  - clear. induction city_features as [|c l IH]; [reflexivity|exact IH].
Qed.

(** X11: on an encoded payload with a duplicate-free schema the active
    city columns are the one indicator the encoder switched on, if the
    schema has it, so the city group is the attribution of that single
    column, and the empty sum when no indicator is on: inactive
    indicators never enter the city group. *)
Theorem city_group_is_active_city_attribution (shap_values : list F)
  (p : PredictIn) :
  NoDup feature_columns ->
  let feature_shap :=
    dict_of_items (combine (columns (build p)) shap_values) in
  let active :=
    match active_col' p with
    | Some a => if existsb (String.eqb a) feature_columns then [a] else []
    | None => []
    end in
  active_cities (build p) city_features = Ok active /\
  exists grouped,
    group_sums feature_shap (build p) (FEATURE_GROUPS feature_columns) []
    = Ok grouped /\
    dict_get "المدينة" grouped =
    Some (py_sum (map (fun f => dict_get_default f nzero feature_shap) active)).
Proof.
  intros Hnd feature_shap active.
  assert (Hactive : active_cities (build p) city_features = Ok active).
  { rewrite active_cities_build_filter;
      [|exact Hnd|apply incl_filter|
       apply Forall_forall; intros f Hf; now apply filter_In in Hf].
    unfold active. now rewrite (active_city_features p Hnd). }
  split; [exact Hactive|].
  rewrite group_sums_unroll, Hactive. cbn [bind].
  eexists. split; reflexivity.
Qed.

End CityGroup.

(** ** The two handlers on one request *)

Lemma index0_map {A B : Type} (f : A -> B) (xs : list A) (x : A) :
  index0 xs = Ok x -> index0 (map f xs) = Ok (f x).
Proof. destruct xs as [|x0 xs]; [discriminate|]. now intros [= ->]. Qed.

Section SharedEstimate.

Variable feature_columns : list string.
Variable city_categories : list string.
Variable final_model_predict : DataFrame -> result (list float).
Variable py_round2 : float -> float.
Variable np_min np_max np_mean np_median : list float -> result float.
Variable np_percentile : list float -> Z -> result float.
Variable np_histogram : list float -> nat -> result (list Z * list float).
Context {S : Type} {scalar_S : Scalar S}.
Context {F : Type} {number_F : Number F}.
Variable model_predict : DataFrame -> result (list S).
Variable explainer_values : DataFrame -> result (list F).
Variable attribution_float : F -> float.

Local Notation model_output' :=
  (model_output feature_columns city_categories model_predict).
Local Notation judge_price' :=
  (judge_price feature_columns city_categories final_model_predict py_round2
     np_min np_max np_mean np_median np_percentile np_histogram).
Local Notation predict' :=
  (predict feature_columns city_categories model_predict explainer_values
     attribution_float).

(** X12: the two handlers start from the same output of the model but do
    not compute alike.  When both return for the same payload, [predict]
    multiplies by 1.011 and rounds ([np.round]) the model's scalar in the
    scalar's own arithmetic and converts the result to [float], while
    [judge_price] converts the same scalar to [float] first and multiplies
    and rounds (builtin [round]) in binary64.  The hypothesis says that the
    prices [judge_price] reads are the model's outputs converted. *)
Theorem handlers_share_point_estimate (payload : JudgeIn)
  (o1 : PredictOut.t) (o2 : JudgeOut.t) :
  (forall df, final_model_predict df =
              let* ys := model_predict df in Ok (map scalar_float ys)) ->
  predict' payload = Ok o1 -> judge_price' payload = Ok o2 ->
  exists y : S, model_output' payload y /\
    PredictOut.predicted_price o1 =
      scalar_float (scalar_round2 (scalar_surcharge payload y)) /\
    JudgeOut.predicted_price o2 =
      py_round2 (parking_surcharge payload (scalar_float y)).
Proof.
  intros Hcast H1 H2.
  apply predict_Ok in H1 as (y & Hy & Hp).
  apply judge_price_Ok in H2 as (t & Hb & ->).
  destruct Hb as (_ & _ & _ & _ & _ & _ & _ & _ & (ys' & Hys' & Ht)).
  exists y. split; [exact Hy|]. split; [exact Hp|].
  destruct Hy as (ys & Hys & Hy).
  rewrite Hcast, Hys in Hys'. cbn [bind] in Hys'. injection Hys' as <-.
  rewrite (index0_map scalar_float ys y Hy) in Ht. injection Ht as Ht.
  unfold judge_response, r. cbn [JudgeOut.predicted_price].
  now rewrite <- Ht.
Qed.

End SharedEstimate.

(** The stub model emits [float64], which [float] leaves as it is. *)
Lemma stub_predict_float (unit_price : float) (df : DataFrame) :
  Demo.stub_predict unit_price df =
  let* ys := Demo.stub_predict unit_price df in Ok (map (fun x => x) ys).
Proof. unfold Demo.stub_predict. cbn [bind]. now rewrite map_id. Qed.

(** A listing in Nablus: the city group is the attribution 7 of the Nablus
    indicator. *)
Lemma city_group_is_active_city_attribution_witness :
  exists grouped,
    @group_sums float (float_Number Demo.round2)
      (dict_of_items
         (combine Demo.feature_columns [30; 20; -10; 25; 5; -5; 0; 5; 40; 7; 3]%float))
      (build_model_input Demo.feature_columns Demo.city_categories
         (Demo.request_of "نابلس" None))
      (FEATURE_GROUPS Demo.feature_columns) [] = Ok grouped /\
    dict_get "المدينة" grouped = Some 7%float.
Proof.
  destruct (@city_group_is_active_city_attribution Demo.feature_columns
              Demo.city_categories float (float_Number Demo.round2)
              [30; 20; -10; 25; 5; -5; 0; 5; 40; 7; 3]%float
              (Demo.request_of "نابلس" None) demo_columns_distinct)
    as (_ & grouped & Hsums & Hcity).
  exists grouped. split; [exact Hsums|exact Hcity].
Defined.

(** A [float32] model that estimates 340560.46875 for a listing with
    parking: [predict] returns 344306.625 and [judge_price] 344306.63. *)
Lemma handlers_share_point_estimate_witness :
  exists o1 o2,
    Demo.predict32 113520.15625 Demo.stub_explainer
      (Demo.request_of "نابلس" (Some 1%Z)) = Ok o1 /\
    judge_price Demo.feature_columns Demo.city_categories
      (Demo.stub_predict 113520.15625) Demo.round2 Demo.np_min Demo.np_max
      Demo.np_mean Demo.np_median Demo.np_percentile Demo.np_histogram
      {| attrs := Demo.request_of "نابلس" (Some 1%Z);
         listed_price := 340000 |} = Ok o2 /\
    PredictOut.predicted_price o1 = 344306.625%float /\
    JudgeOut.predicted_price o2 = 344306.63%float.
Proof.
  assert (H1 : {o1 | Demo.predict32 113520.15625 Demo.stub_explainer
                       (Demo.request_of "نابلس" (Some 1%Z)) = Ok o1})
    by (eexists; vm_compute; reflexivity).
  assert (H2 : {o2 | judge_price Demo.feature_columns Demo.city_categories
                       (Demo.stub_predict 113520.15625) Demo.round2
                       Demo.np_min Demo.np_max Demo.np_mean Demo.np_median
                       Demo.np_percentile Demo.np_histogram
                       {| attrs := Demo.request_of "نابلس" (Some 1%Z);
                          listed_price := 340000 |} = Ok o2})
    by (eexists; vm_compute; reflexivity).
  destruct H1 as [o1 H1]. destruct H2 as [o2 H2].
  pose proof (@handlers_share_point_estimate Demo.feature_columns
                Demo.city_categories (Demo.stub_predict 113520.15625)
                Demo.round2 Demo.np_min Demo.np_max Demo.np_mean
                Demo.np_median Demo.np_percentile Demo.np_histogram
                float Demo.float32_Scalar float Demo.float32_Number
                (Demo.stub_predict 113520.15625) Demo.stub_explainer
                (fun x => x)
                {| attrs := Demo.request_of "نابلس" (Some 1%Z);
                   listed_price := 340000 |} o1 o2
                (stub_predict_float 113520.15625) H1 H2)
    as (y & (ys & Hys & Hy) & Hp & Hj).
  vm_compute in Hys. injection Hys as <-. injection Hy as <-.
  exists o1, o2.
  split; [exact H1|]. split; [exact H2|].
  split; [rewrite Hp|rewrite Hj]; vm_compute; reflexivity.
Defined.

(** * The scraper's age transformer *)

Module ScrapperProperties.

Import Scrapper.

Lemma str_eqb_eq (a b : str) : str_eqb a b = true -> a = b.
Proof.
  revert b. induction a as [|x a IH]; intros [|y b]; simpl;
    try discriminate; [reflexivity|].
  intros H. apply andb_prop in H as [Hxy Hab].
  apply N.eqb_eq in Hxy. subst. f_equal. now apply IH.
Qed.

Lemma str_dict_get_In {V : Type} (k : str) (v : V) (m : list (str * V)) :
  str_dict_get k m = Some v -> In (k, v) m.
Proof.
  induction m as [|[k' v'] m IH]; simpl; [discriminate|].
  destruct (str_eqb k' k) eqn:E.
  - intros [= ->]. apply str_eqb_eq in E. subst. now left.
  - intros H. right. now apply IH.
Qed.


(** No key of [age_map] is written with digits only. *)
Lemma age_map_no_numeral (k : str) :
  forallb ascii_digit k = true -> str_dict_get k age_map = None.
Proof.
  intros Hk. destruct (str_dict_get k age_map) as [v|] eqn:E; [|reflexivity].
  apply str_dict_get_In in E. apply (in_map fst) in E. cbn [fst] in E.
  assert (Hkeys : existsb (forallb ascii_digit) (map fst age_map) = false)
    by (vm_compute; reflexivity).
  assert (Hex : existsb (forallb ascii_digit) (map fst age_map) = true)
    by (apply existsb_exists; exists k; split; assumption).
  congruence.
Qed.

(** [translate] turns an eastern Arabic digit into the western digit of the
    same value and leaves a western digit as it is. *)
Lemma translate_digit (c : N) (d : Z) :
  arabic_digit c = Some d ->
  exists c', translate eastern_to_western_map [c] = [c'] /\
             ascii_digit c' = true /\ (Z.of_N c' - 48)%Z = d.
Proof.
  unfold arabic_digit.
  destruct ((48 <=? c) && (c <=? 57))%N eqn:Hw.
  - intros [= <-]. exists c. split; [|split; [exact Hw|reflexivity]].
    apply andb_prop in Hw as [H1 H2].
    apply N.leb_le in H1. apply N.leb_le in H2.
    assert (Hc : (c = 48 \/ c = 49 \/ c = 50 \/ c = 51 \/ c = 52 \/ c = 53 \/
                  c = 54 \/ c = 55 \/ c = 56 \/ c = 57)%N) by lia.
    repeat (destruct Hc as [->|Hc]; [reflexivity|]). now subst.
  - destruct ((1632 <=? c) && (c <=? 1641))%N eqn:He; [|discriminate].
    intros [= <-].
    apply andb_prop in He as [H1 H2].
    apply N.leb_le in H1. apply N.leb_le in H2.
    assert (Hc : (c = 1632 \/ c = 1633 \/ c = 1634 \/ c = 1635 \/ c = 1636 \/
                  c = 1637 \/ c = 1638 \/ c = 1639 \/ c = 1640 \/ c = 1641)%N)
      by lia.
    repeat (destruct Hc as [->|Hc];
            [eexists; split; [reflexivity|split; reflexivity]|]).
    subst. eexists; split; [reflexivity|split; reflexivity].
Qed.

(** The translated numeral: western digits, writing the same number. *)
Lemma translate_numeral (text : str) (n : Z) :
  Forall (fun c => arabic_digit c <> None) text ->
  forallb ascii_digit (translate eastern_to_western_map text) = true /\
  fold_left (fun n c => (10 * n + (Z.of_N c - 48))%Z)
            (translate eastern_to_western_map text) n =
  fold_left (fun n c => match arabic_digit c with
                        | Some d => (10 * n + d)%Z
                        | None => n
                        end) text n.
Proof.
  intros Hall. revert n. induction Hall as [|c text Hc _ IH]; intros n.
  - split; reflexivity.
  - destruct (arabic_digit c) as [d|] eqn:Ed; [|contradiction].
    destruct (translate_digit c d Ed) as (c' & Hc' & Hd & Hv).
    change (translate eastern_to_western_map (c :: text))
      with (translate eastern_to_western_map [c]
            ++ translate eastern_to_western_map text).
    rewrite Hc'. cbn [app forallb fold_left]. rewrite Hd, Ed, Hv.
    destruct (IH (10 * n + d)%Z) as [IH1 IH2]. now rewrite IH1, IH2.
Qed.

Lemma numeral_value_nonneg (text : str) : (0 <= numeral_value text)%Z.
Proof.
  unfold numeral_value.
  assert (H : forall n, (0 <= n)%Z ->
            (0 <= fold_left (fun n c => match arabic_digit c with
                                        | Some d => (10 * n + d)%Z
                                        | None => n
                                        end) text n)%Z); [|apply H; lia].
  induction text as [|c text IH]; intros n Hn; cbn [fold_left]; [exact Hn|].
  apply IH. unfold arabic_digit.
  destruct ((48 <=? c) && (c <=? 57))%N eqn:Hw.
  - apply andb_prop in Hw as [H1 _]. apply N.leb_le in H1. lia.
  - destruct ((1632 <=? c) && (c <=? 1641))%N eqn:He; [|exact Hn].
    apply andb_prop in He as [H1 _]. apply N.leb_le in H1. lia.
Qed.

Section Transformers.

Variable unicode_decimal : N -> option Z.
Variable int_max_str_digits : nat.

Local Notation is_digit' := (is_digit unicode_decimal).
Local Notation take_digits' := (take_digits unicode_decimal).
Local Notation re_search_digits' := (re_search_digits unicode_decimal).
Local Notation py_int' := (py_int unicode_decimal int_max_str_digits).
Local Notation transform_age' :=
  (transform_age unicode_decimal int_max_str_digits).
Local Notation read_digit :=
  (fun (acc : result Z) (c : N) =>
     let* n := acc in
     match unicode_decimal c with
     | Some d => Ok (10 * n + d)%Z
     | None => Raise "ValueError: invalid literal for int() with base 10"
     end).



Section DigitValues.

Hypothesis decimal_range :
  forall c d, unicode_decimal c = Some d -> (0 <= d <= 9)%Z.




End DigitValues.

Section WesternDigits.

Hypothesis decimal_ascii :
  forall c, (48 <= c <= 57)%N -> unicode_decimal c = Some (Z.of_N c - 48)%Z.

Lemma ascii_digit_is_digit (c : N) : ascii_digit c = true -> is_digit' c = true.
Proof.
  intros Hc. apply andb_prop in Hc as [H1 H2].
  apply N.leb_le in H1. apply N.leb_le in H2.
  unfold is_digit. now rewrite decimal_ascii by lia.
Qed.

Lemma take_digits_numeral (s : str) :
  forallb ascii_digit s = true -> take_digits' s = s.
Proof.
  induction s as [|c s IH]; [reflexivity|]. cbn [forallb take_digits].
  intros H. apply andb_prop in H as [Hc Hs].
  now rewrite (ascii_digit_is_digit c Hc), IH.
Qed.

Lemma read_numeral (s : str) (n : Z) :
  forallb ascii_digit s = true ->
  fold_left read_digit s (Ok n) =
  Ok (fold_left (fun n c => (10 * n + (Z.of_N c - 48))%Z) s n).
Proof.
  revert n. induction s as [|c s IH]; intros n; [reflexivity|].
  cbn [forallb fold_left bind]. intros H. apply andb_prop in H as [Hc Hs].
  apply andb_prop in Hc as [H1 H2].
  apply N.leb_le in H1. apply N.leb_le in H2.
  rewrite decimal_ascii by lia. now apply IH.
Qed.

(** X14: on a text that is a number written in western or eastern Arabic
    digits the scraper returns the bucket of that number: 0 for 0, 2 for
    1..5, 3 for 6..9, 4 for 10..19 and 5 from 20 on.  This is the bucket
    [map_building_age] gives the same number at serving time for every
    number but 1, which the scraper puts in bucket 2 and
    [map_building_age] in bucket 1. *)
Theorem transform_age_numeral (text : str) :
  text <> [] ->
  Forall (fun c => arabic_digit c <> None) text ->
  (int_max_str_digits = 0 \/ List.length text <= int_max_str_digits)%nat ->
  exists bucket,
    transform_age' (Some text) = Ok (PyInt bucket) /\
    bucket = (let n := numeral_value text in
              if n =? 0 then 0 else if n <=? 5 then 2 else if n <=? 9 then 3
              else if n <=? 19 then 4 else 5)%Z /\
    (bucket = map_building_age (numeral_value text) <->
     numeral_value text <> 1%Z) /\
    (numeral_value text = 1%Z ->
     bucket = 2%Z /\ map_building_age (numeral_value text) = 1%Z).
Proof.
  intros Hne Hall Hlim.
  destruct (translate_numeral text 0%Z Hall) as [Hdig Hval].
  fold (numeral_value text) in Hval.
  pose proof (numeral_value_nonneg text) as Hn.
  set (n := numeral_value text) in *.
  assert (Hrun : transform_age' (Some text) =
                 Ok (PyInt (if n =? 0 then 0 else if n <=? 5 then 2
                            else if n <=? 9 then 3
                            else if n <=? 19 then 4 else 5)%Z)).
  { destruct text as [|c0 t0]; [contradiction|]. cbn [transform_age].
    set (t := c0 :: t0) in *. set (s := translate eastern_to_western_map t) in *.
    rewrite (age_map_no_numeral s Hdig).
    assert (Hlen : List.length s = List.length t) by apply length_map.
    assert (Hs : exists c1 s1, s = c1 :: s1)
      by (destruct s; [discriminate Hlen|eauto]).
    destruct Hs as (c1 & s1 & Hs).
    assert (Hsearch : re_search_digits' s = Some s).
    { rewrite Hs in Hdig |- *. cbn [forallb] in Hdig.
      apply andb_prop in Hdig as [Hc1 Hs1]. cbn [re_search_digits].
      now rewrite (ascii_digit_is_digit c1 Hc1), (take_digits_numeral s1 Hs1). }
    rewrite Hsearch.
    assert (Hint : py_int' s = Ok n).
    { unfold py_int. rewrite Hlen.
      assert (Hok : negb (int_max_str_digits =? 0)%nat
                    && (int_max_str_digits <? List.length t)%nat = false).
      { destruct Hlim as [->|Hle]; [reflexivity|].
        apply andb_false_iff. right. apply Nat.ltb_ge. exact Hle. }
      rewrite Hok. rewrite Hs at 1. rewrite (read_numeral s 0%Z Hdig).
      now rewrite Hval. }
    rewrite Hint. cbn [bind]. rewrite !Z.geb_leb.
    destruct (Z.eqb_spec n 0); [reflexivity|].
    destruct (Z.leb_spec 1 n); [|lia].
    destruct (Z.leb_spec n 5); cbn [andb]; [reflexivity|].
    destruct (Z.leb_spec 6 n); [|lia].
    destruct (Z.leb_spec n 9); cbn [andb]; [reflexivity|].
    destruct (Z.leb_spec 10 n); [|lia].
    destruct (Z.leb_spec n 19); cbn [andb]; [reflexivity|].
    destruct (Z.leb_spec 20 n); [reflexivity|lia]. }
  eexists. split; [exact Hrun|]. split; [reflexivity|].
  unfold map_building_age.
  destruct (Z.eqb_spec n 0); [lia|].
  destruct (Z.eqb_spec n 1) as [->|]; [cbn; lia|].
  destruct (Z.leb_spec n 5), (Z.leb_spec 2 n); cbn [andb]; try lia.
  destruct (Z.leb_spec n 9), (Z.leb_spec 6 n); cbn [andb]; try lia.
  destruct (Z.leb_spec n 19), (Z.leb_spec 10 n); cbn [andb]; lia.
Qed.

End WesternDigits.

End Transformers.


Lemma arabic_digit_ascii (c : N) :
  (48 <= c <= 57)%N -> arabic_digit c = Some (Z.of_N c - 48)%Z.
Proof.
  intros [H1 H2]. unfold arabic_digit.
  apply N.leb_le in H1. apply N.leb_le in H2. now rewrite H1, H2.
Qed.


(** A listing aged one year, as the scraper and as the service bucket it. *)
Lemma transform_age_numeral_witness :
  numeral_value (utf8_decode "١") = 1%Z /\
  exists bucket,
    transform_age arabic_digit 4300 (Some (utf8_decode "١")) = Ok (PyInt bucket) /\
    bucket = 2%Z /\ map_building_age 1 = 1%Z.
Proof.
  split; [reflexivity|].
  destruct (transform_age_numeral arabic_digit 4300 arabic_digit_ascii
              (utf8_decode "١"))
    as (bucket & Hrun & _ & _ & Hone).
  - discriminate.
  - repeat constructor. discriminate.
  - right. vm_compute. lia.
  - exists bucket. split; [exact Hrun|]. exact (Hone eq_refl).
Defined.

End ScrapperProperties.
